(** * gpt_2_length_patch71: sampling loop and training loop

    A shallow embedding of the control logic of [generate] and [finetune]
    from [src/gpt_2_length_patch71.py], and of the helpers around them:
    [generate_to_file], [generate_samples], the download of the
    pretrained model, archive names and CSV encoding.  The transformer,
    the tokenizer and the TensorFlow session are external services: they
    enter the development as Section variables.  Python exceptions are values of [exn], loops that
    may run for ever take fuel, and everything the functions do to the
    outside world is recorded in a trace of events. *)

From Stdlib Require Import ZArith List String Ascii Bool Lia Floats.
From Stdlib Require Import DecimalString DecimalZ DecimalFacts.
From stdpp Require Import base option list.

Local Open Scope string_scope.
Local Open Scope list_scope.
Local Open Scope Z_scope.

(** ** Python values and builtins used by the source *)

Module Py.

(** Where an [assert] statement of the source sits. *)
Inductive assert_site :=
| AssertNsamplesBatch      (* assert nsamples % batch_size == 0 *)
| AssertPrefixBoth         (* assert not (prefix and batch_prefix) *)
| AssertBatchPrefixLen     (* assert not batch_prefix or len(batch_prefix) == batch_size *)
| AssertTruncationTerm.    (* assert truncate is not None *)

Inductive exn :=
| AssertionError (site : assert_site)
| ZeroDivisionError
| IndexError
| ValueError
| KeyboardInterrupt
| SystemExit
| ServiceError (code : nat).   (* any failure raised by an external service *)

(** Result of running fuelled code. *)
Inductive outcome (A : Type) :=
| Done (a : A)
| Raise (e : exn)
| OutOfFuel.
Arguments Done {A} a.
Arguments Raise {A} e.
Arguments OutOfFuel {A}.

(** Code with effects: a state transformer that may raise.  What was done
    to the state before an exception stays done. *)
Definition M (S A : Type) : Type := S -> outcome A * S.

Definition ret {S A} (a : A) : M S A := fun s => (Done a, s).

Definition bind {S A B} (m : M S A) (k : A -> M S B) : M S B :=
  fun s =>
    match m s with
    | (Done a, s') => k a s'
    | (Raise e, s') => (Raise e, s')
    | (OutOfFuel, s') => (OutOfFuel, s')
    end.

Definition lift {S A} (o : outcome A) : M S A := fun s => (o, s).
Definition raise {S A} (e : exn) : M S A := lift (Raise e).
Definition get {S} : M S S := fun s => (Done s, s).
Definition modify {S} (f : S -> S) : M S unit := fun s => (Done tt, f s).

(** [l[i]] for [0 <= i] *)
Definition index {S A} (l : list A) (i : nat) : M S A :=
  match l !! i with
  | Some a => ret a
  | None => raise IndexError
  end.

(** [l[i] = v] for [0 <= i] *)
Definition setitem {S A} (l : list A) (i : nat) (v : A) : M S (list A) :=
  if (i <? List.length l)%nat then ret (<[i:=v]> l) else raise IndexError.

(** Truthiness of the optional arguments. *)
Definition str_truthy (s : option string) : bool :=
  match s with
  | Some (String _ _) => true
  | _ => false
  end.

Definition list_truthy {A} (l : option (list A)) : bool :=
  match l with
  | Some (_ :: _) => true
  | _ => false
  end.

Definition int_truthy (n : option Z) : bool :=
  match n with
  | Some n => negb (n =? 0)
  | None => false
  end.

Definition nonempty {A} (l : list A) : bool :=
  match l with
  | [] => false
  | _ :: _ => true
  end.

(** [a[k:]] for a list [a] and an integer [k] of either sign. *)
Definition slice_from {A} (k : Z) (a : list A) : list A :=
  if 0 <=? k then drop (Z.to_nat k) a
  else drop (Z.to_nat (Z.of_nat (List.length a) + k)) a.

(** [s.lstrip('\n')] *)
Fixpoint lstrip_nl (s : string) : string :=
  match s with
  | String c s' => if Ascii.eqb c "010"%char then lstrip_nl s' else s
  | EmptyString => s
  end.

(** Does [p] start [s]?  When it does, the rest of [s]. *)
Fixpoint strip_prefix (p s : string) : option string :=
  match p, s with
  | EmptyString, _ => Some s
  | String a p', String b s' =>
      if Ascii.eqb a b then strip_prefix p' s' else None
  | String _ _, EmptyString => None
  end.

(** [re.search('(.*?)(?:T)', s, re.S)] for an escaped, literal [T]: the
    scan starts at offset 0 and the lazy group grows one character at a
    time until [T] matches, so the match is the first occurrence of [T]
    and group 1 is the text before it.  The result is [(group 1, rest
    after T)]. *)
Fixpoint search_before (T s : string) : option (string * string) :=
  match strip_prefix T s with
  | Some rest => Some (EmptyString, rest)
  | None =>
      match s with
      | EmptyString => None
      | String c s' =>
          match search_before T s' with
          | Some (g, rest) => Some (String c g, rest)
          | None => None
          end
      end
  end.

(** [re.search('(?:P)(.*?)(?:T)', s, re.S)] for literal [P] and [T]: start
    offsets are tried from the left; at an offset where [P] matches, the
    lazy group looks for the first [T] after it; if there is none, the next
    offset is tried.  Group 1 is returned. *)
Fixpoint search_between (P T s : string) : option string :=
  let here :=
    match strip_prefix P s with
    | Some after => option_map fst (search_before T after)
    | None => None
    end in
  match here with
  | Some g => Some g
  | None =>
      match s with
      | EmptyString => None
      | String _ s' => search_between P T s'
      end
  end.

(** [T in s] *)
Definition contains (T s : string) : bool :=
  match search_before T s with
  | Some _ => true
  | None => false
  end.

(** [str(n)] for an int. *)
Definition str (n : Z) : string := NilZero.string_of_int (Z.to_int n).

(** The blanks [int()] skips around the digits: tab to carriage return,
    and the space.  The separators 28 to 31 are not among them:
    [int('\x1f41')] raises [ValueError]. *)
Definition is_space (c : ascii) : bool :=
  let n := nat_of_ascii c in
  ((9 <=? n) && (n <=? 13) || (n =? 32))%nat.

Fixpoint lstrip (s : string) : string :=
  match s with
  | String c s' => if is_space c then lstrip s' else s
  | EmptyString => s
  end.

Fixpoint rstrip (s : string) : string :=
  match s with
  | String c s' =>
      match rstrip s' with
      | EmptyString => if is_space c then EmptyString else String c EmptyString
      | r => String c r
      end
  | EmptyString => EmptyString
  end.

(** Digit-group underscores of an int literal: single, between digits.
    [had_digit] says whether the previous character was not an underscore. *)
Fixpoint drop_underscores (had_digit : bool) (s : string) : option string :=
  match s with
  | EmptyString => if had_digit then Some EmptyString else None
  | String c s' =>
      if Ascii.eqb c "_"%char
      then (if had_digit then drop_underscores false s' else None)
      else option_map (String c) (drop_underscores true s')
  end.

Definition parse_digits (s : string) : option Z :=
  match drop_underscores false s with
  | Some ds => option_map Z.of_uint (NilZero.uint_of_string ds)
  | None => None
  end.

(** [int(s)] for a str: surrounding whitespace is dropped, then an
    optional sign and a non-empty run of decimal digits; anything else is a
    ValueError. *)
Definition int (s : string) : outcome Z :=
  let body := rstrip (lstrip s) in
  let parsed :=
    match body with
    | String c rest =>
        if Ascii.eqb c "-"%char then option_map Z.opp (parse_digits rest)
        else if Ascii.eqb c "+"%char then parse_digits rest
        else parse_digits body
    | EmptyString => None
    end in
  match parsed with
  | Some n => Done n
  | None => Raise ValueError
  end.

End Py.

Notation "x <- m ;; k" := (Py.bind m (fun x => k))
  (at level 100, m at next level, right associativity).
Notation "m ;;; k" := (Py.bind m (fun _ => k))
  (at level 100, right associativity).


(** ** The sampling loop: [generate] *)

Module Generate.
Import Py.

Definition token := Z.
Definition chunk := list token.

(** The keyword arguments of [generate] that its control flow reads.
    [temperature], [top_k], [top_p] and [seed] only reach the model service. *)
Record args := {
  return_as_list : bool;
  truncate : option string;
  destination_path : option string;
  sample_delim : string;
  prefix : option string;
  nsamples : Z;
  batch_size : option Z;
  length : option Z;
  include_prefix : bool;
  batch_prefix : option (list string)
}.


Definition with_batch_prefix (v : option (list string)) (a : args) : args :=
  {| return_as_list := return_as_list a; truncate := truncate a;
     destination_path := destination_path a; sample_delim := sample_delim a;
     prefix := prefix a; nsamples := nsamples a; batch_size := batch_size a;
     length := length a; include_prefix := include_prefix a;
     batch_prefix := v |}.

Inductive event :=
| EvOpen (path : string)                           (* open(destination_path, 'w') *)
| EvSample (len : Z) (context : list (list token)) (* sess.run(output, ...) *)
| EvWrite (s : string)                             (* f.write(...) *)
| EvPrint (s : string)                             (* print(..., end='') *)
| EvClose.                                         (* f.close() *)

(** The local variables of [generate] that its loops update.  [gen_text]
    holds references into [heap]: the source builds it as
    [[[]] * batch_size], one list object referenced from every slot, and
    [gen_text[i] += [text]] extends that object in place. *)
Record state := {
  context_tokens : list (list token);
  heap : list (list chunk);
  gen_text : list nat;
  truncated : list bool;
  total_tokens : Z;
  generated : Z;
  gen_texts : list string;
  calls : nat;
  trace : list event
}.

Definition set_context_tokens (v : list (list token)) (st : state) : state :=
  {| context_tokens := v; heap := heap st; gen_text := gen_text st;
     truncated := truncated st; total_tokens := total_tokens st;
     generated := generated st; gen_texts := gen_texts st;
     calls := calls st; trace := trace st |}.

Definition set_heap (v : list (list chunk)) (st : state) : state :=
  {| context_tokens := context_tokens st; heap := v; gen_text := gen_text st;
     truncated := truncated st; total_tokens := total_tokens st;
     generated := generated st; gen_texts := gen_texts st;
     calls := calls st; trace := trace st |}.

Definition set_gen_text (v : list nat) (st : state) : state :=
  {| context_tokens := context_tokens st; heap := heap st; gen_text := v;
     truncated := truncated st; total_tokens := total_tokens st;
     generated := generated st; gen_texts := gen_texts st;
     calls := calls st; trace := trace st |}.

Definition set_truncated (v : list bool) (st : state) : state :=
  {| context_tokens := context_tokens st; heap := heap st; gen_text := gen_text st;
     truncated := v; total_tokens := total_tokens st;
     generated := generated st; gen_texts := gen_texts st;
     calls := calls st; trace := trace st |}.

Definition set_total_tokens (v : Z) (st : state) : state :=
  {| context_tokens := context_tokens st; heap := heap st; gen_text := gen_text st;
     truncated := truncated st; total_tokens := v;
     generated := generated st; gen_texts := gen_texts st;
     calls := calls st; trace := trace st |}.

Definition set_generated (v : Z) (st : state) : state :=
  {| context_tokens := context_tokens st; heap := heap st; gen_text := gen_text st;
     truncated := truncated st; total_tokens := total_tokens st;
     generated := v; gen_texts := gen_texts st;
     calls := calls st; trace := trace st |}.

Definition set_gen_texts (v : list string) (st : state) : state :=
  {| context_tokens := context_tokens st; heap := heap st; gen_text := gen_text st;
     truncated := truncated st; total_tokens := total_tokens st;
     generated := generated st; gen_texts := v;
     calls := calls st; trace := trace st |}.

Definition set_calls (v : nat) (st : state) : state :=
  {| context_tokens := context_tokens st; heap := heap st; gen_text := gen_text st;
     truncated := truncated st; total_tokens := total_tokens st;
     generated := generated st; gen_texts := gen_texts st;
     calls := v; trace := trace st |}.

Definition emit_event (e : event) (st : state) : state :=
  {| context_tokens := context_tokens st; heap := heap st; gen_text := gen_text st;
     truncated := truncated st; total_tokens := total_tokens st;
     generated := generated st; gen_texts := gen_texts st;
     calls := calls st; trace := trace st ++ [e] |}.

(** The state on entry: nothing computed, nothing done. *)
Definition entry : state :=
  {| context_tokens := []; heap := []; gen_text := []; truncated := [];
     total_tokens := 0; generated := 0; gen_texts := []; calls := 0;
     trace := [] |}.

Definition deref (h : list (list chunk)) (l : nat) : list chunk :=
  default [] (h !! l).

(** The head of [generate]: [batch_size] defaulted to 1,
    [assert nsamples % batch_size == 0], [sample_delim] emptied for a single
    sample, the two asserts on the prefixes, the normalisation of empty
    prefixes and the assert on [length].  The arguments come back as the
    rest of the function sees them. *)
Definition preamble (a : args) : outcome args :=
  let bs := default 1 (batch_size a) in
  if bs =? 0 then Raise ZeroDivisionError else
  if negb (nsamples a mod bs =? 0) then Raise (AssertionError AssertNsamplesBatch) else
  let delim := if nsamples a =? 1 then "" else sample_delim a in
  if str_truthy (prefix a) && list_truthy (batch_prefix a)
  then Raise (AssertionError AssertPrefixBoth) else
  if list_truthy (batch_prefix a)
     && negb (Z.of_nat (List.length (default [] (batch_prefix a))) =? bs)
  then Raise (AssertionError AssertBatchPrefixLen) else
  let prefix' := match prefix a with Some "" => None | p => p end in
  let batch_prefix' := match batch_prefix a with Some [] => None | p => p end in
  if negb (int_truthy (length a)) && negb (bool_decide (is_Some (truncate a)))
  then Raise (AssertionError AssertTruncationTerm) else
  Done {| return_as_list := return_as_list a;
          truncate := truncate a;
          destination_path := destination_path a;
          sample_delim := delim;
          prefix := prefix';
          nsamples := nsamples a;
          batch_size := Some bs;
          length := length a;
          include_prefix := include_prefix a;
          batch_prefix := batch_prefix' |}.

Section Services.

(** The tokenizer service. *)
Variable encode : string -> list token.
Variable decode : list token -> string.
Variable endoftext : token.

(** The model service: the [n]-th call of [sess.run] on the graph of
    [sample.sample_sequence(length=len, ...)] fed with [context]. *)
Variable sess_run : nat -> Z -> list (list token) -> list (list token).

(** [int(n*(1-split_context))] and [int(n*split_context)]: the float
    products stay with the caller. *)
Variable cut_context : Z -> Z.
Variable cut_text : Z -> Z.

(** Left-padding of the per-slot prefixes with token 0 up to the longest. *)
Definition pad_front (ps : list (list token)) : list (list token) :=
  let ml := foldr (fun p m => Nat.max (List.length p) m) 0%nat ps in
  map (fun p => replicate (ml - List.length p) 0 ++ p) ps.

Definition initial_context (a : args) (bs : Z) : list (list token) :=
  if str_truthy (prefix a)
  then replicate (Z.to_nat bs) (encode (default "" (prefix a)))
  else if list_truthy (batch_prefix a)
  then pad_front (map encode (default [] (batch_prefix a)))
  else replicate (Z.to_nat bs) [endoftext].

(** The search of the truncation term in the decoded text of a slot. *)
Definition find_truncation (a : args) (T : string) (to_trunc : string)
  : option string :=
  if str_truthy (prefix a) && negb (include_prefix a)
  then search_between (default "" (prefix a)) T to_trunc
  else option_map fst (search_before T to_trunc).

(** [if truncate or all(gen_text): ...]: the context of the slot slides,
    the text is cut when the slot already holds text, and the truncation
    term is searched.  Returns [text] and [trunc_text] as a boolean. *)
Definition continue_and_truncate (a : args) (out_i text : chunk) (i : nat)
  : M state (chunk * bool) :=
  st <- get ;;
  ctx <- setitem (context_tokens st) i
           (slice_from (cut_context (Z.of_nat (List.length out_i))) out_i) ;;
  modify (set_context_tokens ctx) ;;;
  l <- index (gen_text st) i ;;
  let text := if nonempty (deref (heap st) l)
              then slice_from (cut_text (Z.of_nat (List.length out_i))) out_i
              else text in
  match truncate a with
  | Some (String _ _ as T) =>
      match find_truncation a T (decode text) with
      | Some g => ret (encode g, true)
      | None => ret (text, false)
      end
  | _ => ret (text, false)
  end.

(** The body of [for i in range(batch_size)] for slot [i]. *)
Definition slot (a : args) (out : list (list token)) (i : nat) : M state unit :=
  st <- get ;;
  t <- index (truncated st) i ;;
  if t then ret tt else
  out_i <- index out i ;;
  text <- (if str_truthy (prefix a) || list_truthy (batch_prefix a)
           then c <- index (context_tokens st) i ;; ret (take 1 c ++ out_i)
           else ret out_i) ;;
  found <- (if str_truthy (truncate a)
               || forallb (fun l => nonempty (deref (heap st) l)) (gen_text st)
            then continue_and_truncate a out_i text i
            else ret (text, false)) ;;
  let '(text, trunc_text) := found in
  l <- index (gen_text st) i ;;
  modify (fun st => set_gen_text (<[i:=l]> (gen_text st))
                      (set_heap (alter (fun cell => cell ++ [text]) l (heap st)) st)) ;;;
  if trunc_text
     || match length a with
        | Some n => n - 1 <=? total_tokens st
        | None => false
        end
  then st <- get ;;
       tr <- setitem (truncated st) i true ;;
       modify (set_truncated tr)
  else ret tt.

Fixpoint for_slots (a : args) (out : list (list token)) (slots : list nat)
  : M state unit :=
  match slots with
  | [] => ret tt
  | i :: slots' => slot a out i ;;; for_slots a out slots'
  end.

(** [range(batch_size)] *)
Definition range (bs : Z) : list nat := seq 0 (Z.to_nat bs).

(** One pass through the body of [while False in truncated]. *)
Definition sample_step (a : args) (bs : Z) : M state unit :=
  st <- get ;;
  c0 <- index (context_tokens st) 0 ;;
  let num_tokens := 1023 - Z.of_nat (List.length c0) in
  let len := Z.min (if int_truthy (length a) then default 0 (length a) else 1023)
                   num_tokens in
  let out := map (drop 1) (sess_run (calls st) len (context_tokens st)) in
  modify (fun st => set_calls (S (calls st))
                      (emit_event (EvSample len (context_tokens st)) st)) ;;;
  modify (fun st => set_total_tokens (total_tokens st + num_tokens) st) ;;;
  for_slots a out (range bs).

Fixpoint sampling (fuel : nat) (a : args) (bs : Z) : M state unit :=
  match fuel with
  | O => lift OutOfFuel
  | S fuel' =>
      st <- get ;;
      if existsb negb (truncated st)
      then sample_step a bs ;;; sampling fuel' a bs
      else ret tt
  end.

(** The text of one slot: every chunk decoded and stripped of leading
    newlines, then joined. *)
Definition render (gen : list chunk) : string :=
  foldr String.append "" (map (fun g => lstrip_nl (decode g)) gen).

Definition format (a : args) (gen : string) : string :=
  (gen ++ String "010"%char (sample_delim a))%string.

(** The body of [for gen in gen_text]. *)
Definition emit (a : args) (l : nat) : M state unit :=
  st <- get ;;
  let gen := render (deref (heap st) l) in
  (if str_truthy (destination_path a)
   then modify (emit_event (EvWrite (format a gen))) else ret tt) ;;;
  (if negb (return_as_list a) && negb (str_truthy (destination_path a))
   then modify (emit_event (EvPrint (format a gen))) else ret tt) ;;;
  modify (fun st => set_gen_texts (gen_texts st ++ [gen]) st).

Fixpoint for_gens (a : args) (gens : list nat) : M state unit :=
  match gens with
  | [] => ret tt
  | l :: gens' => emit a l ;;; for_gens a gens'
  end.

(** One pass through the body of [while generated < nsamples]. *)
Definition batch (fuel : nat) (a : args) (bs : Z) : M state unit :=
  modify (fun st =>
            set_total_tokens 0
              (set_truncated (replicate (Z.to_nat bs) false)
                 (set_gen_text (replicate (Z.to_nat bs) (List.length (heap st)))
                    (set_heap (heap st ++ [[]]) st)))) ;;;
  sampling fuel a bs ;;;
  st <- get ;;
  for_gens a (gen_text st) ;;;
  modify (fun st => set_generated (generated st + bs) st).

Fixpoint batches (fuel : nat) (a : args) (bs : Z) : M state unit :=
  match fuel with
  | O => lift OutOfFuel
  | S fuel' =>
      st <- get ;;
      if generated st <? nsamples a
      then batch fuel' a bs ;;; batches fuel' a bs
      else ret tt
  end.

(** [generate]: the value returned ([None] is Python's [None]). *)
Definition generate_body (fuel : nat) (a0 : args) : M state (option (list string)) :=
  a <- lift (preamble a0) ;;
  let bs := default 1 (batch_size a) in
  modify (set_context_tokens (initial_context a bs)) ;;;
  (if str_truthy (destination_path a)
   then modify (emit_event (EvOpen (default "" (destination_path a))))
   else ret tt) ;;;
  batches fuel a bs ;;;
  (if str_truthy (destination_path a)
   then modify (emit_event EvClose) else ret tt) ;;;
  st <- get ;;
  ret (if return_as_list a then Some (gen_texts st) else None).

(** A call of [generate]: how it ends and what it did on the way. *)
Definition generate (fuel : nat) (a0 : args)
  : outcome (option (list string)) * list event :=
  let '(r, st) := generate_body fuel a0 entry in (r, trace st).

(** [generate_to_file]: [generate] with [return_as_list=False] and without
    [batch_prefix]; its value is dropped. *)
Definition generate_to_file (fuel : nat) (a0 : args) : outcome unit * list event :=
  let a := {| return_as_list := false; truncate := truncate a0;
              destination_path := destination_path a0;
              sample_delim := sample_delim a0; prefix := prefix a0;
              nsamples := nsamples a0; batch_size := batch_size a0;
              length := length a0; include_prefix := include_prefix a0;
              batch_prefix := None |} in
  let '(r, tr) := generate fuel a in
  (match r with
   | Done _ => Done tt
   | Raise e => Raise e
   | OutOfFuel => OutOfFuel
   end, tr).

End Services.

End Generate.

(** ** The training loop: [finetune] *)

Module Finetune.
Import Py.

(** The keyword arguments of [finetune] that its control flow reads. *)
Record params := {
  steps : Z;
  model_name : string;
  accumulate_gradients : Z;
  restore_from : string;
  sample_every : Z;
  save_every : Z;
  print_every : Z;
  use_memory_saving_gradients : bool;
  overwrite : bool
}.

Inductive event :=
| EvMaketree                          (* os.makedirs(checkpoint_path) *)
| EvPrintSaving (step : Z)            (* print('Saving', ...model-{counter-1}) *)
| EvSave (global_step : Z)            (* saver.save(sess, ..., global_step=counter-1) *)
| EvWriteCounter (content : string)   (* fp.write(str(counter-1) + '\n') *)
| EvRemoveFiles                       (* os.remove of the model and events files *)
| EvGenerateSamples (counter : Z)     (* generate_samples() *)
| EvReset                             (* sess.run(opt_reset) *)
| EvSampleBatch                       (* sample_batch() *)
| EvCompute                           (* sess.run(opt_compute, ...) *)
| EvApply                             (* sess.run((opt_apply, summary_loss)) *)
| EvTrainStep                         (* sess.run((opt_apply, loss, summary_loss), ...) *)
| EvSummary (counter : Z)             (* summary_log.add_summary(v_summary, counter) *)
| EvPrintLoss (counter : Z) (loss avg : float)   (* print('[{counter} | ...') *)
| EvPrintInterrupted.                 (* print('interrupted') *)

(** What the outside world answers to a call: a value (the loss, where the
    call yields one) or an exception, [KeyboardInterrupt] included. *)
Inductive reply :=
| Ok (v : float)
| Fail (e : exn).

Record state := {
  counter : Z;
  avg_loss : float * float;
  counter_file : option string;   (* the file <checkpoint_path>/counter *)
  clock : nat;                    (* calls made so far *)
  trace : list event
}.

Definition set_counter (v : Z) (st : state) : state :=
  {| counter := v; avg_loss := avg_loss st; counter_file := counter_file st;
     clock := clock st; trace := trace st |}.

Definition set_avg_loss (v : float * float) (st : state) : state :=
  {| counter := counter st; avg_loss := v; counter_file := counter_file st;
     clock := clock st; trace := trace st |}.

Definition set_counter_file (v : option string) (st : state) : state :=
  {| counter := counter st; avg_loss := avg_loss st; counter_file := v;
     clock := clock st; trace := trace st |}.

Definition tick (st : state) : state :=
  {| counter := counter st; avg_loss := avg_loss st; counter_file := counter_file st;
     clock := S (clock st); trace := trace st |}.

Definition log (e : event) (st : state) : state :=
  {| counter := counter st; avg_loss := avg_loss st; counter_file := counter_file st;
     clock := clock st; trace := trace st ++ [e] |}.

(** The process starts with the counter file as the last run left it. *)
Definition entry (file : option string) : state :=
  {| counter := 1; avg_loss := (0, 0)%float; counter_file := file;
     clock := 0; trace := [] |}.

(** [a % b] *)
Definition py_mod (a b : Z) : M state Z :=
  if b =? 0 then raise ZeroDivisionError else ret (a mod b).

(** [model_name not in ['117M', '124M']] forces the memory-saving path and
    switches accumulation off. *)
Definition small_model (p : params) : bool :=
  (model_name p =? "117M")%string || (model_name p =? "124M")%string.

Definition effective_accumulate (p : params) : Z :=
  if small_model p then accumulate_gradients p else 1.

Definition effective_memory_saving (p : params) : bool :=
  if small_model p then use_memory_saving_gradients p else true.

(** [avg_loss = (avg_loss[0] * 0.99 + v_loss, avg_loss[1] * 0.99 + 1.0)] *)
Definition update_avg (avg : float * float) (v_loss : float) : float * float :=
  (fst avg * 0.99 + v_loss, snd avg * 0.99 + 1.0)%float.

(** [avg_loss[0] / avg_loss[1]] *)
Definition reported (avg : float * float) : float := (fst avg / snd avg)%float.

(** The counter a run starts from: 1, or one more than the number in the
    counter file when that file exists and [restore_from == 'latest']. *)
Definition start_counter (restore : string) (file : option string) : outcome Z :=
  match file with
  | Some content =>
      if (restore =? "latest")%string
      then match int content with
           | Done n => Done (n + 1)
           | Raise e => Raise e
           | OutOfFuel => OutOfFuel
           end
      else Done 1
  | None => Done 1
  end.

Section World.

Variable world : nat -> reply.

(** A call to a service: it is answered by the world; the event is logged
    when the call returns. *)
Definition call (e : event) : M state float :=
  fun st =>
    match world (clock st) with
    | Ok v => (Done v, log e (tick st))
    | Fail x => (Raise x, tick st)
    end.

(** [try: os.makedirs(path) except: pass] *)
Definition maketree : M state unit :=
  fun st =>
    match call EvMaketree st with
    | (Done _, st') => (Done tt, st')
    | (_, st') => (Done tt, st')
    end.

(** [save()] *)
Definition save : M state unit :=
  maketree ;;;
  st <- get ;;
  call (EvPrintSaving (counter st - 1)) ;;;
  call (EvSave (counter st - 1)) ;;;
  let content := (str (counter st - 1) ++ String "010"%char "")%string in
  call (EvWriteCounter content) ;;;
  modify (set_counter_file (Some content)).

(** [for _ in range(accumulate_gradients): sess.run(opt_compute,
    feed_dict={context: sample_batch()})] *)
Fixpoint accumulate (n : nat) : M state unit :=
  match n with
  | O => ret tt
  | S n' => call EvSampleBatch ;;; call EvCompute ;;; accumulate n'
  end.

(** The optimizer step of one iteration; the value is [v_loss]. *)
Definition optimise (acc : Z) : M state float :=
  if 1 <? acc
  then call EvReset ;;; accumulate (Z.to_nat acc) ;;; call EvApply
  else call EvSampleBatch ;;; call EvTrainStep.

(** One pass through the body of [while True]; [true] stands for the
    [return] of the step budget. *)
Definition iteration (p : params) (acc counter_base : Z) : M state bool :=
  st <- get ;;
  if (0 <? steps p) && (counter st =? counter_base + steps p)
  then save ;;; ret true
  else
    r <- py_mod (counter st - 1) (save_every p) ;;
    (if (r =? 0) && (1 <? counter st) then save else ret tt) ;;;
    r <- py_mod (counter st - 1) (sample_every p) ;;
    (if (r =? 0) && (1 <? counter st)
     then call (EvGenerateSamples (counter st)) ;;; ret tt else ret tt) ;;;
    v_loss <- optimise acc ;;
    call (EvSummary (counter st)) ;;;
    r <- py_mod (counter st) (print_every p) ;;
    (if r =? 0
     then modify (fun st => set_avg_loss (update_avg (avg_loss st) v_loss) st) ;;;
          st' <- get ;;
          call (EvPrintLoss (counter st) v_loss (reported (avg_loss st'))) ;;; ret tt
     else ret tt) ;;;
    modify (fun st => set_counter (counter st + 1) st) ;;;
    ret false.

Fixpoint loop (fuel : nat) (p : params) (acc counter_base : Z) : M state unit :=
  match fuel with
  | O => lift OutOfFuel
  | S fuel' =>
      returned <- iteration p acc counter_base ;;
      if returned then ret tt else loop fuel' p acc counter_base
  end.

(** [try: while True: ... except KeyboardInterrupt: print('interrupted');
    save()] *)
Definition training (fuel : nat) (p : params) (acc counter_base : Z) : M state unit :=
  fun st =>
    match loop fuel p acc counter_base st with
    | (Raise KeyboardInterrupt, st') =>
        (call EvPrintInterrupted ;;; save) st'
    | r => r
    end.

(** [finetune] from the point where the graph is built up to the loop: the
    exit on the unsupported combination, the starting counter and the
    overwrite policy.  Copying the model files, restoring the checkpoint
    and loading the dataset are taken to have succeeded.  The value is
    [counter_base]. *)
Definition start (p : params) : M state Z :=
  (if (1 <? effective_accumulate p) && effective_memory_saving p
   then raise SystemExit else ret tt) ;;;
  st <- get ;;
  c <- lift (start_counter (restore_from p) (counter_file st)) ;;
  modify (set_counter c) ;;;
  (if overwrite p && (restore_from p =? "latest")%string
   then call EvRemoveFiles ;;; save else ret tt) ;;;
  modify (set_avg_loss (0, 0)%float) ;;;
  ret c.


End World.

End Finetune.

(** ** The samples written during training: [generate_samples] *)

Module Samples.
Import Py.

(** How [generate_samples] can fail, and how a run of its loop ends. *)
Inductive failure :=
| RowMissing          (* IndexError: out[i] *)
| UnboundLocalError.  (* print(text) before any assignment to text *)

Inductive ended (A : Type) :=
| Returned (a : A)
| Failed (e : failure)
| Spinning.           (* the fuel of the model ran out *)
Arguments Returned {A} a.
Arguments Failed {A} e.
Arguments Spinning {A}.

(** The local variables of [generate_samples]; [text] is unbound until
    the first sample is decoded.  [calls] counts the calls of
    [sess.run(tf_sample, ...)]. *)
Record state := {
  all_text : list string;
  index : Z;
  text : option string;
  calls : nat
}.

Definition entry : state :=
  {| all_text := []; index := 0; text := None; calls := 0 |}.

(** ['======== SAMPLE {} ========\n{}\n'.format(n, text)] *)
Definition banner (n : Z) (text : string) : string :=
  ("======== SAMPLE " ++ str n ++ " ========" ++ String "010" ""
   ++ text ++ String "010" "")%string.

Section Services.

Variable decode : list Z -> string.

(** The [n]-th call of [sess.run(tf_sample, ...)]: one row per slot. *)
Variable sess_run : nat -> list (list Z).

Variable sample_num : Z.
Variable batch_size : Z.

(** The body of [for i in range(...)]. *)
Definition row (out : list (list Z)) (i : nat) (st : state) : option state :=
  match out !! i with
  | None => None
  | Some o =>
      let text := banner (index st + 1) (decode o) in
      Some {| all_text := all_text st ++ [text]; index := index st + 1;
              text := Some text; calls := calls st |}
  end.

Fixpoint rows (out : list (list Z)) (slots : list nat) (st : state)
  : option state :=
  match slots with
  | [] => Some st
  | i :: slots' =>
      match row out i st with
      | None => None
      | Some st' => rows out slots' st'
      end
  end.

(** [while index < sample_num: out = sess.run(...);
    for i in range(min(sample_num - index, batch_size)): ...] *)
Fixpoint sample_loop (fuel : nat) (st : state) : ended state :=
  match fuel with
  | O => Spinning
  | S fuel' =>
      if index st <? sample_num
      then
        let out := sess_run (calls st) in
        let st1 := {| all_text := all_text st; index := index st;
                      text := text st; calls := S (calls st) |} in
        match rows out (seq 0 (Z.to_nat (Z.min (sample_num - index st)
                                               batch_size))) st1 with
        | None => Failed RowMissing
        | Some st' => sample_loop fuel' st'
        end
      else Returned st
  end.

(** [generate_samples()]: what it prints and what it writes to the
    samples file, ['\n'.join(all_text)]. *)
Definition generate_samples (fuel : nat) : ended (string * string) :=
  match sample_loop fuel entry with
  | Returned st =>
      match text st with
      | Some t => Returned (t, String.concat (String "010" "") (all_text st))
      | None => Failed UnboundLocalError
      end
  | Failed e => Failed e
  | Spinning => Spinning
  end.

End Services.

End Samples.

(** ** Files: the pretrained model, archive names, CSV encoding *)

Module Files.

(** [os.path.join] of [posixpath], one component at a time. *)
Definition starts_with_sep (s : string) : bool :=
  match s with
  | String c _ => Ascii.eqb c "/"
  | EmptyString => false
  end.

Fixpoint ends_with_sep (s : string) : bool :=
  match s with
  | EmptyString => false
  | String c EmptyString => Ascii.eqb c "/"
  | String _ s' => ends_with_sep s'
  end.

Definition join2 (path b : string) : string :=
  if starts_with_sep b then b
  else if (path =? "")%string || ends_with_sep path then (path ++ b)%string
  else (path ++ "/" ++ b)%string.

Definition join (a : string) (p : list string) : string := fold_left join2 p a.

(** [s.replace(old, new)] for one-character [old] and [new]. *)
Fixpoint replace_char (old new : ascii) (s : string) : string :=
  match s with
  | EmptyString => EmptyString
  | String c s' =>
      String (if Ascii.eqb c old then new else c) (replace_char old new s')
  end.

(** [get_tarfile_name]; [os.path.sep] is ['/']. *)
Definition get_tarfile_name (checkpoint_folder : string) : string :=
  (replace_char "/" "_" checkpoint_folder ++ ".tar")%string.

(** The file names both [download_gpt2] and [is_gpt2_downloaded] list. *)
Definition model_files : list string :=
  ["checkpoint"; "encoder.json"; "hparams.json";
   "model.ckpt.data-00000-of-00001"; "model.ckpt.index";
   "model.ckpt.meta"; "vocab.bpe"]%string.

(** The regular files of the file system, by path. *)
Definition files := list string.

(** [os.path.isfile] *)
Definition isfile (fs : files) (path : string) : bool :=
  existsb (String.eqb path) fs.

(** The loop of [is_gpt2_downloaded], with its early [return False]. *)
Fixpoint all_present (fs : files) (model_dir model_name : string)
  (names : list string) : bool :=
  match names with
  | [] => true
  | filename :: names' =>
      if negb (isfile fs (join model_dir [model_name; filename]))
      then false
      else all_present fs model_dir model_name names'
  end.

Definition is_gpt2_downloaded (fs : files) (model_dir model_name : string)
  : bool :=
  all_present fs model_dir model_name model_files.

Section Network.

(** Whether fetching a URL and writing it out ends without an exception. *)
Variable fetch : string -> bool.

(** [download_file_with_progress]: when it returns, the file opened with
    [open(os.path.join(sub_dir, file_name), 'wb')] is there; [None] is
    any exception. *)
Definition download_file_with_progress
  (url_base sub_dir model_name file_name : string) (fs : files)
  : option files :=
  if fetch (url_base ++ "/models/" ++ model_name ++ "/" ++ file_name)%string
  then Some (join sub_dir [file_name] :: fs)
  else None.

Fixpoint download_all (sub_dir model_name : string) (names : list string)
  (fs : files) : option files :=
  match names with
  | [] => Some fs
  | file_name :: names' =>
      match download_file_with_progress "https://storage.googleapis.com/gpt-2"
              sub_dir model_name file_name fs with
      | None => None
      | Some fs' => download_all sub_dir model_name names' fs'
      end
  end.

(** [download_gpt2]; creating the directory adds no regular file. *)
Definition download_gpt2 (model_dir model_name : string) (fs : files)
  : option files :=
  let sub_dir := join model_dir [model_name] in
  let sub_dir := replace_char "\" "/" sub_dir in
  download_all sub_dir model_name model_files fs.

(** The first statement of [cmd_finetune]. *)
Definition ensure_downloaded (model_dir model_name : string) (fs : files)
  : option files :=
  if negb (is_gpt2_downloaded fs model_dir model_name)
  then download_gpt2 model_dir model_name fs
  else Some fs.

End Network.

(** [encode_csv]: [lines] are the lines of the CSV file, [reader] is
    [csv.reader] on what [f.readline()] left of them.  The value is the
    list of strings written to the output file, and whether [row[0]]
    raised [IndexError]. *)
Section Csv.

Variable reader : list string -> list (list string).

Fixpoint write_rows (start_token end_token : string)
  (rows : list (list string)) (written : list string)
  : bool * list string :=
  match rows with
  | [] => (true, written)
  | row :: rows' =>
      match row with
      | [] => (false, written)
      | field :: _ =>
          write_rows start_token end_token rows'
            (written
             ++ [(start_token ++ field ++ end_token ++ String "010" "")%string])
      end
  end.

Definition encode_csv (lines : list string) (header : bool)
  (start_token end_token : string) : bool * list string :=
  let rest := if header then tail lines else lines in
  write_rows start_token end_token (reader rest) [].

End Csv.

End Files.

(** ** Concrete services and arguments, used to run the embedding *)

Module Scenario.
Import Py.

(** A world in which every call succeeds and every loss is 2.5. *)
Definition calm (n : nat) : Finetune.reply := Finetune.Ok 2.5%float.

(** The same world, except that call number [k] raises [e]. *)
Definition failing (k : nat) (e : exn) (n : nat) : Finetune.reply :=
  if (n =? k)%nat then Finetune.Fail e else Finetune.Ok 2.5%float.

(** The defaults of [finetune], with a step budget. *)
Definition training_defaults (budget : Z) : Finetune.params :=
  {| Finetune.steps := budget;
     Finetune.model_name := "124M";
     Finetune.accumulate_gradients := 5;
     Finetune.restore_from := "latest";
     Finetune.sample_every := 100;
     Finetune.save_every := 1000;
     Finetune.print_every := 1;
     Finetune.use_memory_saving_gradients := false;
     Finetune.overwrite := false |}.


(** A run about to save at step 42. *)
Definition at_step_42 : Finetune.state :=
  Finetune.set_counter 42 (Finetune.entry None).

(** A byte-level tokenizer: one token per character; tokens that are not
    bytes (the end-of-text marker) decode to nothing. *)
Definition byte_encode (s : string) : list Generate.token :=
  map (fun c => Z.of_nat (nat_of_ascii c)) (list_ascii_of_string s).

Fixpoint byte_decode (ts : list Generate.token) : string :=
  match ts with
  | [] => ""
  | t :: ts' =>
      if (0 <=? t) && (t <? 256)
      then String (ascii_of_nat (Z.to_nat t)) (byte_decode ts')
      else byte_decode ts'
  end.

Definition end_of_text : Generate.token := 50256.

(** A model that continues every context with [len] copies of one letter:
    ["a"] on its first call, ["b"] afterwards. *)
Definition a_then_b (n : nat) (len : Z) (context : list (list Generate.token))
  : list (list Generate.token) :=
  map (fun c => c ++ replicate (Z.to_nat len) (if (n =? 0)%nat then 97 else 98))
      context.

(** [split_context = 0.5] *)
Definition half (n : Z) : Z := n / 2.

Definition run_generate (fuel : nat) (a : Generate.args) :=
  Generate.generate byte_encode byte_decode end_of_text a_then_b half half fuel a.

(** The defaults of [generate], returning a list, for [n] samples in
    batches of [bs] and [len] tokens each. *)
Definition generate_defaults (n bs len : Z) : Generate.args :=
  {| Generate.return_as_list := true;
     Generate.truncate := None;
     Generate.destination_path := None;
     Generate.sample_delim := ("====================" ++ String "010" "")%string;
     Generate.prefix := None;
     Generate.nsamples := n;
     Generate.batch_size := Some bs;
     Generate.length := Some len;
     Generate.include_prefix := true;
     Generate.batch_prefix := None |}.

(** The same call with a destination file as well. *)
Definition to_file_and_list : Generate.args :=
  {| Generate.return_as_list := true;
     Generate.truncate := None;
     Generate.destination_path := Some "out.txt";
     Generate.sample_delim := "";
     Generate.prefix := None;
     Generate.nsamples := 2;
     Generate.batch_size := Some 1;
     Generate.length := Some 3;
     Generate.include_prefix := true;
     Generate.batch_prefix := None |}.

(** Two per-slot prefixes for a batch of one. *)
Definition two_prefixes_one_slot : Generate.args :=
  Generate.with_batch_prefix (Some ["a"; "b"]) (generate_defaults 1 1 3).

(** Truncation at ["ab"], with room for two rounds of sampling. *)
Definition truncate_at_ab : Generate.args :=
  {| Generate.return_as_list := true;
     Generate.truncate := Some "ab";
     Generate.destination_path := None;
     Generate.sample_delim := "";
     Generate.prefix := None;
     Generate.nsamples := 1;
     Generate.batch_size := Some 1;
     Generate.length := Some 1500;
     Generate.include_prefix := true;
     Generate.batch_prefix := None |}.

(** A batch of two slots on entry to the sampling loop, and what the model
    returns for it (the context token already dropped). *)
Definition two_slots : Generate.state :=
  {| Generate.context_tokens := [[end_of_text]; [end_of_text]];
     Generate.heap := [[]];
     Generate.gen_text := [0%nat; 0%nat];
     Generate.truncated := [false; false];
     Generate.total_tokens := 1022;
     Generate.generated := 0;
     Generate.gen_texts := [];
     Generate.calls := 1;
     Generate.trace := [] |}.

Definition three_letters : list (list Generate.token) :=
  [[97; 97; 97]; [97; 97; 97]].

Definition run_slot (a : Generate.args) (out : list (list Generate.token))
  (i : nat) (st : Generate.state) :=
  Generate.slot byte_encode byte_decode half half a out i st.

(** One slot before its first round, and a model output with the
    truncation term in it. *)
Definition one_slot : Generate.state :=
  {| Generate.context_tokens := [[end_of_text]];
     Generate.heap := [[]];
     Generate.gen_text := [0%nat];
     Generate.truncated := [false];
     Generate.total_tokens := 1022;
     Generate.generated := 0;
     Generate.gen_texts := [];
     Generate.calls := 1;
     Generate.trace := [] |}.

Definition with_term : list (list Generate.token) := [byte_encode "xxabyy"].

(** [print_every=0] *)
Definition no_printing : Finetune.params :=
  {| Finetune.steps := -1; Finetune.model_name := "124M"; Finetune.accumulate_gradients := 1;
     Finetune.restore_from := "latest"; Finetune.sample_every := 100; Finetune.save_every := 1000;
     Finetune.print_every := 0; Finetune.use_memory_saving_gradients := false;
     Finetune.overwrite := false |}.

(** [overwrite=True] on a run resumed from its latest checkpoint. *)
Definition overwriting : Finetune.params :=
  {| Finetune.steps := -1; Finetune.model_name := "124M"; Finetune.accumulate_gradients := 1;
     Finetune.restore_from := "latest"; Finetune.sample_every := 100; Finetune.save_every := 1000;
     Finetune.print_every := 1; Finetune.use_memory_saving_gradients := false;
     Finetune.overwrite := true |}.

(** A model that answers its [n]-th call with two one-token rows. *)
Definition two_rows (n : nat) : list (list Z) :=
  [[97 + Z.of_nat n]; [65 + Z.of_nat n]].

(** A CSV reader for files of one unquoted column: a blank line is an
    empty row. *)
Definition one_field (lines : list string) : list (list string) :=
  map (fun l => if (l =? "")%string then [] else [l]) lines.

(** A model that returns no row at all. *)
Definition no_rows (n : nat) (len : Z) (context : list (list Generate.token))
  : list (list Generate.token) := [].




End Scenario.

(** * Facts *)

(** ** Builtins *)

Module PyFacts.
Import Py.

(** *** Inversion of runs *)

Section Runs.
Context {S : Type}.

Lemma bind_done {A B} (m : M S A) (k : A -> M S B) s b s' :
  bind m k s = (Done b, s') ->
  exists a s1, m s = (Done a, s1) /\ k a s1 = (Done b, s').
Proof.
  unfold bind. destruct (m s) as [[a| |] s1]; intros H; try discriminate H.
  now exists a, s1.
Qed.

Lemma bind_raise {A B} (m : M S A) (k : A -> M S B) s e s' :
  bind m k s = (Raise e, s') ->
  m s = (Raise e, s') \/
  exists a s1, m s = (Done a, s1) /\ k a s1 = (Raise e, s').
Proof.
  unfold bind. destruct (m s) as [[a| |] s1]; intros H; try discriminate H.
  - right. now exists a, s1.
  - left. now injection H as -> ->.
Qed.

Lemma ret_done {A} (a b : A) (s s' : S) :
  ret a s = (Done b, s') -> b = a /\ s' = s.
Proof. now intros [= <- <-]. Qed.

Lemma get_done (s t s' : S) : get s = (Done t, s') -> t = s /\ s' = s.
Proof. now intros [= <- <-]. Qed.

Lemma modify_done (f : S -> S) s u s' :
  modify f s = (Done u, s') -> s' = f s.
Proof. now intros [= <-]. Qed.

Lemma lift_done {A} (o : outcome A) (s s' : S) a :
  lift o s = (Done a, s') -> o = Done a /\ s' = s.
Proof. now intros [= -> <-]. Qed.

Lemma index_done {A} (l : list A) i (s s' : S) a :
  index l i s = (Done a, s') -> l !! i = Some a /\ s' = s.
Proof.
  unfold index, ret, raise, lift.
  destruct (l !! i); [|discriminate]. now intros [= <- <-].
Qed.

Lemma setitem_done {A} (l l' : list A) i v (s s' : S) :
  setitem l i v s = (Done l', s') ->
  (i < List.length l)%nat /\ l' = <[i:=v]> l /\ s' = s.
Proof.
  unfold setitem, ret, raise, lift.
  destruct (Nat.ltb_spec i (List.length l)); [|discriminate].
  now intros [= <- <-].
Qed.

(** A run that keeps a relation between the state it finds and the state
    it leaves, however it ends. *)
Definition preserves {A} (R : S -> S -> Prop) (m : M S A) : Prop :=
  forall s, R s (snd (m s)).

Section Preserves.
Context (R : S -> S -> Prop) `{!PreOrder R}.

Lemma preserves_ret {A} (a : A) : preserves R (ret a).
Proof. intros s. reflexivity. Qed.

Lemma preserves_lift {A} (o : outcome A) : preserves R (lift o).
Proof. intros s. reflexivity. Qed.

Lemma preserves_raise {A} e : preserves R (raise (A:=A) e).
Proof. intros s. reflexivity. Qed.

Lemma preserves_get : preserves R get.
Proof. intros s. reflexivity. Qed.

Lemma preserves_index {A} (l : list A) i : preserves R (index l i).
Proof. intros s. unfold index. destruct (l !! i); reflexivity. Qed.

Lemma preserves_setitem {A} (l : list A) i v : preserves R (setitem l i v).
Proof. intros s. unfold setitem. destruct (_ <? _)%nat; reflexivity. Qed.

Lemma preserves_modify (f : S -> S) :
  (forall s, R s (f s)) -> preserves R (modify f).
Proof. intros H s. apply H. Qed.

Lemma preserves_bind {A B} (m : M S A) (k : A -> M S B) :
  preserves R m -> (forall a, preserves R (k a)) -> preserves R (bind m k).
Proof.
  intros Hm Hk s. unfold bind. specialize (Hm s).
  destruct (m s) as [[a| |] s1]; cbn in *; try assumption.
  etransitivity; [exact Hm|apply Hk].
Qed.

End Preserves.

End Runs.

(** Walks through a run, leaving the [modify] steps to the caller; [known]
    closes the calls whose lemma is already there. *)
Ltac preserve_with known :=
  repeat first
    [ known
    | apply preserves_ret
    | apply preserves_lift
    | apply preserves_raise
    | apply preserves_get
    | apply preserves_index
    | apply preserves_setitem
    | apply preserves_bind;
      [typeclasses eauto with typeclass_instances | | intros ?]
    | match goal with
      | |- preserves _ (match ?x with _ => _ end) => destruct x
      end ].

Ltac preserve := preserve_with fail.

(** Splits a run that ended with [Done] along its binds and branches. *)
Ltac run_inv H :=
  lazymatch type of H with
  | bind _ _ _ = (Done _, _) =>
      let a := fresh "a" in
      let s1 := fresh "s" in
      let H1 := fresh "Hrun" in
      apply bind_done in H as (a & s1 & H1 & H); run_inv H1; run_inv H
  | ret _ _ = (Done _, _) => apply ret_done in H as [? ?]; subst
  | get _ = (Done _, _) => apply get_done in H as [? ?]; subst
  | modify _ _ = (Done _, _) => apply modify_done in H; subst
  | raise _ _ = (Done _, _) => discriminate H
  | lift _ _ = (Done _, _) => apply lift_done in H as [H ?]; subst
  | index _ _ _ = (Done _, _) => apply index_done in H as [H ?]; subst
  | setitem _ _ _ _ = (Done _, _) =>
      apply setitem_done in H as (? & ? & ?); subst
  | (if ?b then _ else _) _ = (Done _, _) =>
      destruct b eqn:?; run_inv H
  | (match ?x with _ => _ end) _ = (Done _, _) =>
      destruct x eqn:?; run_inv H
  | _ => idtac
  end.

(** *** Searching a literal *)

Lemma append_assoc (x y z : string) : ((x ++ y) ++ z = x ++ y ++ z)%string.
Proof. induction x as [|c x IH]; cbn; [reflexivity|now rewrite IH]. Qed.

Lemma strip_prefix_spec p s r : strip_prefix p s = Some r <-> s = (p ++ r)%string.
Proof.
  revert s. induction p as [|a p IH]; intros s; cbn.
  - split; [now intros [= ->]|now intros ->].
  - destruct s as [|b s]; [split; discriminate|].
    destruct (Ascii.eqb_spec a b) as [->|Hne].
    + rewrite IH. split; [now intros ->|now intros [= ->]].
    + split; [discriminate|]. intros [= ? ?]. congruence.
Qed.

Lemma strip_prefix_app p s r x :
  strip_prefix p s = Some r -> strip_prefix p (s ++ x) = Some (r ++ x)%string.
Proof.
  rewrite !strip_prefix_spec. intros ->.
  now rewrite append_assoc.
Qed.

Lemma search_before_empty T : T <> "" -> search_before T "" = None.
Proof. now destruct T. Qed.

(** The match of [search_before] is an occurrence of [T]. *)
Lemma search_before_split T s g rest :
  search_before T s = Some (g, rest) -> s = (g ++ T ++ rest)%string.
Proof.
  revert g rest. induction s as [|c s IH]; intros g rest; cbn.
  - destruct (strip_prefix T "") as [r|] eqn:E; [|discriminate].
    intros [= <- <-]. now apply strip_prefix_spec in E.
  - destruct (strip_prefix T (String c s)) as [r|] eqn:E.
    + intros [= <- <-]. now apply strip_prefix_spec in E.
    + destruct (search_before T s) as [[g' rest']|] eqn:E'; [|discriminate].
      intros [= <- <-]. cbn. f_equal. now apply IH.
Qed.

(** It is the first one: [T] does not occur in the text before it. *)
Lemma search_before_first T s g rest :
  T <> "" -> search_before T s = Some (g, rest) -> contains T g = false.
Proof.
  intros HT. unfold contains. revert g rest.
  induction s as [|c s IH]; intros g rest; cbn.
  - destruct (strip_prefix T "") as [r|] eqn:E; [|discriminate].
    intros [= <- <-]. now rewrite search_before_empty.
  - destruct (strip_prefix T (String c s)) as [r|] eqn:E.
    + intros [= <- <-]. now rewrite search_before_empty.
    + destruct (search_before T s) as [[g' rest']|] eqn:E'; [|discriminate].
      intros [= <- <-]. cbn.
      destruct (strip_prefix T (String c g')) as [r|] eqn:Eg.
      * apply (strip_prefix_app _ _ _ (T ++ rest')) in Eg.
        apply search_before_split in E'. rewrite E' in E.
        cbn in Eg. congruence.
      * specialize (IH _ _ eq_refl). now destruct (search_before T g').
Qed.

(** A text without [T] has no [T] in any of its ends. *)
Lemma contains_suffix T x y :
  contains T (x ++ y) = false -> contains T y = false.
Proof.
  unfold contains. induction x as [|c x IH]; cbn; [trivial|].
  destruct (strip_prefix T (String c (x ++ y))); [discriminate|].
  destruct (search_before T (x ++ y)) as [[]|]; [discriminate|].
  intros _. now apply IH.
Qed.

Lemma lstrip_nl_suffix s : exists x, s = (x ++ lstrip_nl s)%string.
Proof.
  induction s as [|c s [x IH]]; cbn; [now exists ""|].
  destruct (Ascii.eqb c "010").
  - exists (String c x). cbn. now f_equal.
  - now exists "".
Qed.

Lemma contains_lstrip_nl T s :
  contains T s = false -> contains T (lstrip_nl s) = false.
Proof.
  destruct (lstrip_nl_suffix s) as [x Hx]. rewrite Hx at 1.
  apply contains_suffix.
Qed.

(** The match of [search_between]: an occurrence of [P], then the text up
    to the first [T] after it. *)
Lemma search_between_split P T s g :
  T <> "" -> search_between P T s = Some g ->
  contains T g = false /\
  exists before rest, s = (before ++ P ++ g ++ T ++ rest)%string.
Proof.
  intros HT. induction s as [|c s IH]; cbn.
  - destruct (strip_prefix P "") as [after|] eqn:E; [|discriminate].
    destruct (search_before T after) as [[g' rest]|] eqn:E'; [|discriminate].
    cbn. intros [= <-]. split; [eapply search_before_first; eassumption|].
    exists "", rest. apply strip_prefix_spec in E.
    apply search_before_split in E'. cbn. congruence.
  - destruct (strip_prefix P (String c s)) as [after|] eqn:E.
    + destruct (search_before T after) as [[g' rest]|] eqn:E'; cbn.
      * intros [= <-]. split; [eapply search_before_first; eassumption|].
        exists "", rest. apply strip_prefix_spec in E.
        apply search_before_split in E'. cbn. congruence.
      * intros H. destruct (IH H) as (Hc & before & rest & ->).
        split; [assumption|]. now exists (String c before), rest.
    + intros H. destruct (IH H) as (Hc & before & rest & ->).
      split; [assumption|]. now exists (String c before), rest.
Qed.

(** *** [int(str(n) + '\n')] *)

Definition digit (c : ascii) : bool :=
  match uint_of_char c (Some Decimal.Nil) with
  | Some _ => true
  | None => false
  end.

Fixpoint digits (s : string) : bool :=
  match s with
  | EmptyString => true
  | String c s' => digit c && digits s'
  end.

Lemma digit_plain c :
  digit c = true ->
  is_space c = false /\ Ascii.eqb c "_" = false /\
  Ascii.eqb c "-" = false /\ Ascii.eqb c "+" = false.
Proof.
  destruct c as [[] [] [] [] [] [] [] []]; cbv; intros H;
    try discriminate H; repeat split.
Qed.

Lemma digits_of_uint d : digits (NilEmpty.string_of_uint d) = true.
Proof. induction d; simpl; auto. Qed.

Lemma digits_of_uint_nilzero d : digits (NilZero.string_of_uint d) = true.
Proof. destruct d; try reflexivity; apply (digits_of_uint (_ _)). Qed.

Lemma nonempty_of_uint d : NilZero.string_of_uint d <> "".
Proof. destruct d; discriminate. Qed.

Lemma rstrip_newline s :
  digits s = true -> rstrip (s ++ String "010" "") = s.
Proof.
  induction s as [|c s IH]; simpl; [reflexivity|].
  intros [Hc Hs]%andb_true_iff. rewrite (IH Hs).
  destruct s; [|reflexivity].
  destruct (digit_plain c Hc) as [-> _]. reflexivity.
Qed.

Lemma drop_underscores_digits s :
  digits s = true -> drop_underscores true s = Some s.
Proof.
  induction s as [|c s IH]; simpl; [reflexivity|].
  intros [Hc Hs]%andb_true_iff.
  destruct (digit_plain c Hc) as (_ & -> & _). now rewrite (IH Hs).
Qed.

Lemma parse_digits_of_uint d :
  parse_digits (NilZero.string_of_uint d) = Some (Z.of_uint d).
Proof.
  assert (d = Decimal.Nil \/ d <> Decimal.Nil) as [->|Hn]
    by (destruct d; auto; right; discriminate).
  { reflexivity. }
  unfold parse_digits.
  assert (Hd := digits_of_uint_nilzero d).
  assert (Hu := NilZero.usu d Hn).
  destruct (NilZero.string_of_uint d) as [|c s] eqn:E;
    [now destruct (nonempty_of_uint d)|].
  simpl in Hd. apply andb_true_iff in Hd as [Hc Hs].
  simpl drop_underscores. destruct (digit_plain c Hc) as (_ & -> & _).
  rewrite (drop_underscores_digits s Hs). cbn [option_map].
  now rewrite Hu.
Qed.

(** Reading back what [str] printed, with the newline [save()] adds. *)
Lemma int_str_newline n : int (str n ++ String "010" "") = Done n.
Proof.
  unfold int, str.
  assert (Hz := DecimalZ.of_to n).
  destruct (Z.to_int n) as [d|d]; simpl NilZero.string_of_int.
  - assert (Hd := digits_of_uint_nilzero d).
    assert (Hp := parse_digits_of_uint d).
    destruct (NilZero.string_of_uint d) as [|c s] eqn:E;
      [now destruct (nonempty_of_uint d)|].
    assert (Hr := rstrip_newline (String c s) Hd).
    assert (Hd' := Hd). simpl in Hd'. apply andb_true_iff in Hd' as [Hc Hs].
    destruct (digit_plain c Hc) as (Hsp & _ & Hm & Hpl).
    simpl lstrip. rewrite Hsp.
    change (String c (s ++ String "010" ""))%string
      with (String c s ++ String "010" "")%string.
    rewrite Hr, Hm, Hpl, Hp.
    simpl in Hz. now rewrite Hz.
  - assert (Hd := digits_of_uint_nilzero d).
    assert (Hp := parse_digits_of_uint d).
    assert (Hr := rstrip_newline _ Hd).
    simpl lstrip. simpl rstrip. rewrite Hr.
    destruct (NilZero.string_of_uint d) as [|c s] eqn:E;
      [now destruct (nonempty_of_uint d)|].
    simpl Ascii.eqb. rewrite Hp. simpl in Hz. simpl. now rewrite Hz.
Qed.

End PyFacts.

(** ** The sampling loop *)

Module GenerateFacts.
Import Py PyFacts Generate.

(** The strings written to the destination file and the strings printed. *)
Definition writes (tr : list event) : list string :=
  omap (fun e => match e with EvWrite s => Some s | _ => None end) tr.

Definition prints (tr : list event) : list string :=
  omap (fun e => match e with EvPrint s => Some s | _ => None end) tr.

Definition samples (tr : list event) : list event :=
  List.filter (fun e => match e with EvSample _ _ => true | _ => false end) tr.

(** What sampling leaves alone: the texts collected so far, the count of
    generated samples, what was written and printed, and the number of
    slots. *)
Definition kept (st st' : state) : Prop :=
  gen_texts st' = gen_texts st /\
  generated st' = generated st /\
  writes (trace st') = writes (trace st) /\
  prints (trace st') = prints (trace st) /\
  List.length (gen_text st') = List.length (gen_text st).

#[local] Instance kept_preorder : PreOrder kept.
Proof.
  split.
  - intros st. now repeat split.
  - intros s1 s2 s3 (? & ? & ? & ? & ?) (? & ? & ? & ? & ?).
    repeat split; congruence.
Qed.

Section Services.

Variable encode : string -> list token.
Variable decode : list token -> string.
Variable endoftext : token.
Variable sess_run : nat -> Z -> list (list token) -> list (list token).
Variable cut_context : Z -> Z.
Variable cut_text : Z -> Z.

Abbreviation slot := (slot encode decode cut_context cut_text).
Abbreviation for_slots := (for_slots encode decode cut_context cut_text).
Abbreviation sample_step := (sample_step encode decode sess_run cut_context cut_text).
Abbreviation sampling := (sampling encode decode sess_run cut_context cut_text).
Abbreviation batch := (batch encode decode sess_run cut_context cut_text).
Abbreviation batches := (batches encode decode sess_run cut_context cut_text).
Abbreviation generate_body :=
  (generate_body encode decode endoftext sess_run cut_context cut_text).
Abbreviation generate :=
  (generate encode decode endoftext sess_run cut_context cut_text).

Lemma slot_kept a out i : preserves kept (slot a out i).
Proof.
  unfold Generate.slot, continue_and_truncate. preserve.
  all: try typeclasses eauto.
  all: apply preserves_modify; intros s; repeat split.
  all: cbn; rewrite ?length_insert; reflexivity.
Qed.

Lemma for_slots_kept a out slots : preserves kept (for_slots a out slots).
Proof.
  induction slots as [|i slots IH]; cbn [Generate.for_slots];
    preserve_with ltac:(first [apply slot_kept | exact IH]);
    typeclasses eauto.
Qed.

Lemma sample_step_kept a bs : preserves kept (sample_step a bs).
Proof.
  unfold Generate.sample_step.
  preserve_with ltac:(apply for_slots_kept); try typeclasses eauto.
  - apply preserves_modify. intros s. repeat split; cbn.
    + unfold writes. rewrite omap_app. cbn. now rewrite app_nil_r.
    + unfold prints. rewrite omap_app. cbn. now rewrite app_nil_r.
  - apply preserves_modify. intros s. now repeat split.
Qed.

Lemma sampling_kept fuel a bs : preserves kept (sampling fuel a bs).
Proof.
  induction fuel as [|fuel IH]; cbn [Generate.sampling];
    preserve_with ltac:(first [apply sample_step_kept | exact IH]);
    typeclasses eauto.
Qed.

(** The texts a batch hands out: one per reference in [gen_text]. *)
Definition rendered (st : state) (gens : list nat) : list string :=
  map (fun l => render decode (deref (heap st) l)) gens.

Definition written (a : args) (texts : list string) : list string :=
  if str_truthy (destination_path a) then map (format a) texts else [].

Definition printed (a : args) (texts : list string) : list string :=
  if negb (return_as_list a) && negb (str_truthy (destination_path a))
  then map (format a) texts else [].

(** What a run adds to the outputs: [texts] collected, and the same texts
    written or printed as the mode says. *)
Definition adds (a : args) (st st' : state) (texts : list string) : Prop :=
  gen_texts st' = gen_texts st ++ texts /\
  writes (trace st') = writes (trace st) ++ written a texts /\
  prints (trace st') = prints (trace st) ++ printed a texts.

Lemma adds_nil a st st' :
  gen_texts st' = gen_texts st ->
  writes (trace st') = writes (trace st) ->
  prints (trace st') = prints (trace st) ->
  adds a st st' [].
Proof.
  intros H1 H2 H3. unfold adds, written, printed.
  rewrite H1, H2, H3. repeat split; rewrite ?app_nil_r; try reflexivity.
  - now destruct (str_truthy _); rewrite app_nil_r.
  - now destruct (_ && _); rewrite app_nil_r.
Qed.

Lemma adds_trans a s1 s2 s3 t1 t2 :
  adds a s1 s2 t1 -> adds a s2 s3 t2 -> adds a s1 s3 (t1 ++ t2).
Proof.
  unfold adds, written, printed.
  intros (H1 & H2 & H3) (H4 & H5 & H6).
  rewrite H4, H5, H6, H1, H2, H3. repeat split.
  - now rewrite app_assoc.
  - destruct (str_truthy _); rewrite <- app_assoc; [|reflexivity].
    now rewrite map_app.
  - destruct (_ && _); rewrite <- app_assoc; [|reflexivity].
    now rewrite map_app.
Qed.

Lemma emit_done a l st u st' :
  emit decode a l st = (Done u, st') ->
  adds a st st' (rendered st [l]) /\
  heap st' = heap st /\ generated st' = generated st /\
  gen_text st' = gen_text st.
Proof.
  unfold emit. intros H. run_inv H.
  all: unfold adds, written, printed, writes, prints; cbn.
  all: repeat match goal with
         | Hb : ?b = _ |- context [?b] => rewrite Hb
         end.
  all: cbn; rewrite ?omap_app; cbn; rewrite ?app_nil_r.
  all: repeat split; reflexivity.
Qed.

Lemma for_gens_done a gens st u st' :
  for_gens decode a gens st = (Done u, st') ->
  adds a st st' (rendered st gens) /\
  heap st' = heap st /\ generated st' = generated st /\
  gen_text st' = gen_text st.
Proof.
  revert st. induction gens as [|l gens IH]; cbn [for_gens]; intros st H;
    run_inv H.
  - split; [now apply adds_nil|]. now repeat split.
  - match goal with
    | He : emit _ _ _ _ = _ |- _ => apply emit_done in He as (Ha & Hh & Hg & Ht)
    end.
    apply IH in H as (Ha' & Hh' & Hg' & Ht').
    split; [|repeat split; congruence].
    change (rendered st (l :: gens)) with (rendered st [l] ++ rendered st gens).
    eapply adds_trans; [exact Ha|].
    unfold rendered in *. now rewrite <- Hh.
Qed.

Lemma batch_done fuel a bs st u st' :
  batch fuel a bs st = (Done u, st') ->
  exists texts,
    List.length texts = Z.to_nat bs /\
    adds a st st' texts /\
    generated st' = generated st + bs.
Proof.
  unfold Generate.batch. intros H. run_inv H.
  match goal with
  | Hs : sampling ?f _ _ ?s1 = (Done _, ?s2) |- _ =>
      pose proof (sampling_kept f a bs s1) as (K1 & K2 & K3 & K4 & K5);
      rewrite Hs in K1, K2, K3, K4, K5; cbn in K1, K2, K3, K4, K5
  end.
  match goal with
  | Hg : for_gens _ _ _ _ = _ |- _ =>
      apply for_gens_done in Hg as ((G1 & G2 & G3) & _ & G4 & _)
  end.
  eexists. split; [|split].
  - unfold rendered. rewrite length_map, K5. apply length_replicate.
  - unfold adds. cbn [gen_texts trace set_generated].
    rewrite G1, G2, G3, K1, K3, K4. now repeat split.
  - cbn. rewrite G4, K2. reflexivity.
Qed.

Lemma batches_done fuel a bs st u st' :
  batches fuel a bs st = (Done u, st') ->
  exists (n : nat) texts,
    List.length texts = (n * Z.to_nat bs)%nat /\
    adds a st st' texts /\
    generated st' = generated st + Z.of_nat n * bs /\
    nsamples a <= generated st' /\
    (n <> 0%nat -> generated st' - bs < nsamples a).
Proof.
  revert st. induction fuel as [|fuel IH]; intros st H; [discriminate|].
  cbn [Generate.batches] in H. run_inv H.
  - match goal with
    | Hb : batch _ _ _ _ = _ |- _ =>
        apply batch_done in Hb as (t1 & L1 & A1 & G1)
    end.
    apply IH in H as (n & t2 & L2 & A2 & G2 & Hge & Hlt).
    exists (S n), (t1 ++ t2). split; [|split; [|split; [|split]]].
    + rewrite length_app. lia.
    + eapply adds_trans; eassumption.
    + lia.
    + assumption.
    + intros _. destruct n as [|n]; [|apply Hlt; discriminate].
      match goal with
      | Hc : (_ <? _) = true |- _ => apply Z.ltb_lt in Hc
      end.
      lia.
  - exists 0%nat, []. split; [reflexivity|]. split; [now apply adds_nil|].
    match goal with
    | Hc : (_ <? _) = false |- _ => apply Z.ltb_ge in Hc
    end.
    repeat split; try lia; congruence.
Qed.

Lemma preamble_done a0 a :
  preamble a0 = Done a ->
  let bs := default 1 (batch_size a0) in
  bs <> 0 /\ nsamples a0 mod bs = 0 /\
  batch_size a = Some bs /\ nsamples a = nsamples a0 /\
  destination_path a = destination_path a0 /\
  return_as_list a = return_as_list a0 /\
  truncate a = truncate a0 /\ length a = length a0 /\
  include_prefix a = include_prefix a0 /\
  str_truthy (prefix a) = str_truthy (prefix a0) /\
  list_truthy (batch_prefix a) = list_truthy (batch_prefix a0).
Proof.
  unfold preamble. cbn zeta.
  destruct (Z.eqb_spec (default 1 (batch_size a0)) 0); [discriminate|].
  destruct (Z.eqb_spec (nsamples a0 mod default 1 (batch_size a0)) 0);
    [|discriminate].
  cbn [negb].
  destruct (_ && _); [discriminate|].
  destruct (_ && _); [discriminate|].
  destruct (_ && _); [discriminate|].
  intros [= <-]. cbn. repeat split; try assumption.
  - now destruct (prefix a0) as [[]|].
  - now destruct (batch_prefix a0) as [[]|].
Qed.

(** What a call of [generate] that returns has handed out: as many texts
    as requested, each of them to the outputs the mode selects. *)
Lemma generate_done fuel a0 ret tr :
  generate fuel a0 = (Done ret, tr) ->
  exists a texts,
    preamble a0 = Done a /\
    List.length texts = Z.to_nat (nsamples a0) /\
    writes tr = written a texts /\
    prints tr = printed a texts /\
    ret = if return_as_list a0 then Some texts else None.
Proof.
  unfold Generate.generate.
  destruct (Generate.generate_body _ _ _ _ _ _ fuel a0 entry) as [r st] eqn:H.
  intros [= -> <-]. unfold Generate.generate_body in H. run_inv H.
  all: match goal with
       | Hp : preamble _ = Done ?a |- _ =>
           exists a; pose proof (preamble_done _ _ Hp) as
             (Hbs & Hmod & Hb & Hn & Hd & Hr & _); cbn zeta in Hbs, Hmod
       end.
  all: match goal with
       | Hb : batches _ _ _ _ = _ |- _ =>
           apply batches_done in Hb as (n & texts & L & (A1 & A2 & A3) & G & Hge & Hlt)
       end.
  all: exists texts; cbn in A1, A2, A3, G.
  all: (split; [assumption|]); split; [|split; [|split]].
  all: cbn [trace emit_event gen_texts]; unfold writes, prints in *;
    rewrite ?omap_app, ?A2, ?A3; cbn; rewrite ?app_nil_r;
    try reflexivity.
  all: try (rewrite Hr, A1; reflexivity).
  all: rewrite Hb in L, G, Hlt; cbn [default] in L, G, Hlt.
  all: rewrite G, Hn in Hge, Hlt; rewrite L; clear - Hbs Hmod Hge Hlt.
  all: set (bs := default 1 (batch_size a0)) in *; unfold id in *.
  all: apply Z.mod_divide in Hmod as [k Hk]; [|assumption].
  all: destruct (Z.lt_total bs 0) as [Hneg | [? | Hpos]]; [|lia|].
  all: try (replace (Z.to_nat bs) with 0%nat by lia; nia).
  all: destruct n as [|n]; [lia|].
  all: specialize (Hlt ltac:(discriminate)).
  all: rewrite Hk in Hge, Hlt |- *.
  all: assert (k <= Z.of_nat (S n))
    by (apply (Z.mul_le_mono_pos_r _ _ bs); lia).
  all: assert (Z.of_nat n < k)
    by (apply (Z.mul_lt_mono_pos_r bs); lia).
  all: assert (k = Z.of_nat (S n)) as -> by lia.
  all: rewrite Z2Nat.inj_mul, Nat2Z.id by lia; reflexivity.
Qed.

(** The text of a slot that goes into the search for the truncation term:
    what the model returned for the slot, led by the first token of its
    context when a prefix was given; or, when the slot already holds text,
    the returned tokens from the cut on. *)
Definition searched (a : args) (st : state) (i : nat) (cell : list chunk)
  (out_i : chunk) : chunk :=
  if nonempty cell
  then slice_from (cut_text (Z.of_nat (List.length out_i))) out_i
  else if str_truthy (prefix a) || list_truthy (batch_prefix a)
       then take 1 (default [] (context_tokens st !! i)) ++ out_i
       else out_i.

Lemma slot_truncating a out i st u st' T l cell out_i :
  slot a out i st = (Done u, st') ->
  truncated st !! i = Some false ->
  truncate a = Some T -> T <> "" ->
  out !! i = Some out_i ->
  gen_text st !! i = Some l -> heap st !! l = Some cell ->
  match find_truncation a T (decode (searched a st i cell out_i)) with
  | Some g =>
      heap st' !! l = Some (cell ++ [encode g]) /\
      truncated st' !! i = Some true
  | None => heap st' !! l = Some (cell ++ [searched a st i cell out_i])
  end.
Proof.
  intros H Ht HT Hne Ho Hl Hc.
  unfold Generate.slot, continue_and_truncate in H.
  rewrite HT in H. destruct T as [|c T]; [congruence|].
  cbn [str_truthy orb] in H. run_inv H; try (cbn in *; congruence).
  all: unfold searched, deref in *; unfold chunk, token in *.
  all: repeat match goal with
         | H1 : ?x = Some ?y, H2 : ?x = Some ?z |- _ =>
             is_var y; tryif constr_eq y z then fail
             else (rewrite H2 in H1; injection H1 as <-)
         end.
  all: rewrite ?Hc in *.
  all: cbn [default from_option heap truncated set_truncated set_gen_text
              set_heap set_context_tokens] in *; unfold id in *.
  all: repeat match goal with
         | Hx : _ !! _ = Some _ |- _ => rewrite Hx
         | Hx : ?b = true |- context [?b] => rewrite Hx
         | Hx : ?b = false |- context [?b] => rewrite Hx
         | Hx : find_truncation _ _ _ = _ |- _ => rewrite Hx
         end.
  all: rewrite ?list_lookup_alter, ?decide_True by reflexivity.
  all: rewrite ?Hc; cbn [fmap option_fmap option_map default from_option].
  all: repeat match goal with
         | Hx : find_truncation _ _ _ = _ |- _ => rewrite Hx
         end.
  all: try reflexivity.
  all: split; [reflexivity|now apply list_lookup_insert_eq].
Qed.

(** A slot that is marked truncated is skipped. *)
Lemma slot_truncated_skipped a out i st :
  truncated st !! i = Some true -> slot a out i st = (Done tt, st).
Proof.
  intros H. unfold Generate.slot, bind, get, index. now rewrite H.
Qed.

(** C3, amended.  The truncation term is searched in the text of the
    current round of a slot only.  When it is found there, the chunk the
    slot keeps for the round is the encoding of the text before the first
    occurrence of the term (and after the first occurrence of the prefix,
    when a prefix is given and not to be included); that text does not
    contain the term, also after the leading newlines are stripped if the
    tokenizer gives it back unchanged; and the slot is marked truncated.
    Chunks kept in earlier rounds stay as they are. *)
Theorem truncation_cuts_at_term a out i st u st' T l cell out_i g :
  slot a out i st = (Done u, st') ->
  truncated st !! i = Some false ->
  truncate a = Some T -> T <> "" ->
  out !! i = Some out_i ->
  gen_text st !! i = Some l -> heap st !! l = Some cell ->
  find_truncation a T (decode (searched a st i cell out_i)) = Some g ->
  heap st' !! l = Some (cell ++ [encode g]) /\
  truncated st' !! i = Some true /\
  contains T g = false /\
  (exists before rest,
     decode (searched a st i cell out_i) = (before ++ g ++ T ++ rest)%string /\
     if str_truthy (prefix a) && negb (include_prefix a)
     then exists b, before = (b ++ default "" (prefix a))%string
     else before = "") /\
  (decode (encode g) = g ->
   contains T (lstrip_nl (decode (encode g))) = false).
Proof.
  intros H Ht HT Hne Ho Hl Hc Hf.
  pose proof (slot_truncating _ _ _ _ _ _ _ _ _ _ H Ht HT Hne Ho Hl Hc) as Hs.
  rewrite Hf in Hs. destruct Hs as [Hh Htr].
  assert (Hg : contains T g = false /\
               exists before rest,
                 decode (searched a st i cell out_i)
                 = (before ++ g ++ T ++ rest)%string /\
                 if str_truthy (prefix a) && negb (include_prefix a)
                 then exists b, before = (b ++ default "" (prefix a))%string
                 else before = "").
  { unfold find_truncation in Hf.
    destruct (str_truthy (prefix a) && negb (include_prefix a)).
    - apply search_between_split in Hf as (Hn & before & rest & E);
        [|assumption].
      split; [assumption|].
      exists (before ++ default "" (prefix a))%string, rest.
      split; [rewrite E; now rewrite append_assoc|now exists before].
    - destruct (search_before T _) as [[g' rest]|] eqn:E; [|discriminate].
      cbn in Hf. injection Hf as ->.
      split; [eapply search_before_first; eassumption|].
      exists "", rest. split; [|reflexivity].
      now apply search_before_split in E. }
  destruct Hg as [Hn Hsplit]. repeat split; try assumption.
  intros ->. now apply contains_lstrip_nl.
Qed.

Lemma generate_raise fuel a e :
  preamble a = Raise e -> generate fuel a = (Raise e, []).
Proof.
  intros H. unfold Generate.generate, Generate.generate_body, bind, lift.
  now rewrite H.
Qed.

(** C1.  A call with [nsamples] a positive multiple of [batch_size] that
    returns has produced exactly [nsamples] texts: that many are in the
    list when a list is returned, that many were written when a
    destination is set, and that many were printed otherwise. *)
Theorem one_text_per_sample fuel a ret tr :
  0 < nsamples a ->
  (default 1 (batch_size a) | nsamples a) ->
  generate fuel a = (Done ret, tr) ->
  exists texts,
    Z.of_nat (List.length texts) = nsamples a /\
    ret = (if return_as_list a then Some texts else None) /\
    List.length (writes tr)
    = (if str_truthy (destination_path a) then List.length texts else 0%nat) /\
    List.length (prints tr)
    = (if negb (return_as_list a) && negb (str_truthy (destination_path a))
       then List.length texts else 0%nat).
Proof.
  intros Hpos _ H.
  apply generate_done in H as (a' & texts & Hp & L & W & P & R).
  apply preamble_done in Hp as (_ & _ & _ & _ & Hd & Hr & _).
  exists texts. rewrite W, P. unfold written, printed. rewrite Hd, Hr.
  split; [lia|]. split; [assumption|].
  split; [destruct (str_truthy _)|destruct (_ && _)];
    now rewrite ?length_map.
Qed.

(** C4, amended.  Every text of a call that returns goes to the
    destination file exactly when [destination_path] is set, is printed
    exactly when neither [destination_path] nor [return_as_list] is set,
    and is in the returned list exactly when [return_as_list] is set.  So
    printing excludes the other two, at least one of the three happens,
    and a text is both written and returned when both arguments are set. *)
Theorem output_by_mode fuel a ret tr :
  generate fuel a = (Done ret, tr) ->
  exists a' texts,
    preamble a = Done a' /\
    List.length texts = Z.to_nat (nsamples a) /\
    writes tr
    = (if str_truthy (destination_path a) then map (format a') texts else []) /\
    prints tr
    = (if negb (return_as_list a) && negb (str_truthy (destination_path a))
       then map (format a') texts else []) /\
    ret = (if return_as_list a then Some texts else None).
Proof.
  intros H.
  apply generate_done in H as (a' & texts & Hp & L & W & P & R).
  exists a', texts.
  pose proof (preamble_done _ _ Hp) as (_ & _ & _ & _ & Hd & Hr & _).
  unfold written, printed in W, P. rewrite Hd, Hr in *.
  now repeat split.
Qed.

(** C7, amended.  The head of [generate] fails before anything is sampled:
    with [ZeroDivisionError] when [batch_size] is 0, and otherwise with an
    [AssertionError] exactly when [nsamples % batch_size != 0], or
    [prefix] and [batch_prefix] are both non-empty, or [batch_prefix] is
    non-empty and its length is not [batch_size], or [length] is falsy and
    [truncate] is [None]. *)
Theorem configuration_asserts fuel a :
  let bs := default 1 (batch_size a) in
  (bs = 0 -> preamble a = Raise ZeroDivisionError) /\
  (bs <> 0 ->
   (nsamples a mod bs <> 0 \/
    (str_truthy (prefix a) = true /\ list_truthy (batch_prefix a) = true) \/
    (list_truthy (batch_prefix a) = true /\
     Z.of_nat (List.length (default [] (batch_prefix a))) <> bs) \/
    (int_truthy (length a) = false /\ truncate a = None))
   <-> exists site, preamble a = Raise (AssertionError site)) /\
  (forall e, preamble a = Raise e -> generate fuel a = (Raise e, [])).
Proof.
  cbn zeta. split; [|split].
  - intros H. unfold preamble. now rewrite H.
  - intros Hbs. unfold preamble.
    destruct (Z.eqb_spec (default 1 (batch_size a)) 0); [contradiction|].
    destruct (Z.eqb_spec (nsamples a mod default 1 (batch_size a)) 0);
      destruct (str_truthy (prefix a)), (list_truthy (batch_prefix a));
      destruct
        (Z.eqb_spec (Z.of_nat (List.length (default [] (batch_prefix a))))
           (default 1 (batch_size a)));
      destruct (int_truthy (length a)), (truncate a); cbn.
    all: split;
      [ intros [?|[[? ?]|[[? ?]|[? ?]]]]; try congruence; eauto
      | intros [site Hs]; try discriminate Hs;
        first [ left; assumption
              | right; left; split; reflexivity
              | right; right; left; split; [reflexivity|assumption]
              | right; right; right; split; reflexivity ] ].
  - apply generate_raise.
Qed.


End Services.

Lemma one_text_per_sample_witness :
  let a := Scenario.generate_defaults 2 1 3 in
  let tr := snd (Scenario.run_generate 10 a) in
  0 < nsamples a /\
  (default 1 (batch_size a) | nsamples a) /\
  exists texts,
    Z.of_nat (List.length texts) = nsamples a /\
    Some ["aaa"; "bbb"] = (if return_as_list a then Some texts else None) /\
    List.length (writes tr)
    = (if str_truthy (destination_path a) then List.length texts else 0%nat) /\
    List.length (prints tr)
    = (if negb (return_as_list a) && negb (str_truthy (destination_path a))
       then List.length texts else 0%nat).
Proof.
  intros a tr.
  assert (Hpos : 0 < nsamples a) by reflexivity.
  assert (Hdiv : (default 1 (batch_size a) | nsamples a))
    by (exists 2; reflexivity).
  split; [exact Hpos|]. split; [exact Hdiv|].
  apply (one_text_per_sample Scenario.byte_encode Scenario.byte_decode
           Scenario.end_of_text Scenario.a_then_b Scenario.half Scenario.half
           10 a (Some ["aaa"; "bbb"]) tr Hpos Hdiv).
  vm_compute. reflexivity.
Defined.

Lemma output_by_mode_witness :
  let a := Scenario.to_file_and_list in
  let tr := snd (Scenario.run_generate 10 a) in
  exists a' texts,
    preamble a = Done a' /\
    List.length texts = Z.to_nat (nsamples a) /\
    writes tr
    = (if str_truthy (destination_path a) then map (format a') texts else []) /\
    prints tr
    = (if negb (return_as_list a) && negb (str_truthy (destination_path a))
       then map (format a') texts else []) /\
    Some ["aaa"; "bbb"] = (if return_as_list a then Some texts else None).
Proof.
  intros a tr.
  apply (output_by_mode Scenario.byte_encode Scenario.byte_decode
           Scenario.end_of_text Scenario.a_then_b Scenario.half Scenario.half
           10 a (Some ["aaa"; "bbb"]) tr).
  vm_compute. reflexivity.
Defined.

(** With a destination and [return_as_list] both set, every text is written
    to the file and is in the returned list as well. *)
Lemma written_and_returned :
  let '(ret, tr) := Scenario.run_generate 10 Scenario.to_file_and_list in
  ret = Done (Some ["aaa"; "bbb"]) /\
  writes tr = [String "a" (String "a" (String "a" (String "010" "")));
               String "b" (String "b" (String "b" (String "010" "")))] /\
  prints tr = [].
Proof. vm_compute. repeat split. Qed.

Lemma configuration_asserts_witness :
  let a := Scenario.two_prefixes_one_slot in
  let bs := default 1 (batch_size a) in
  (bs = 0 -> preamble a = Raise ZeroDivisionError) /\
  (bs <> 0 ->
   (nsamples a mod bs <> 0 \/
    (str_truthy (prefix a) = true /\ list_truthy (batch_prefix a) = true) \/
    (list_truthy (batch_prefix a) = true /\
     Z.of_nat (List.length (default [] (batch_prefix a))) <> bs) \/
    (int_truthy (length a) = false /\ truncate a = None))
   <-> exists site, preamble a = Raise (AssertionError site)) /\
  (forall e, preamble a = Raise e ->
             Scenario.run_generate 10 a = (Raise e, [])).
Proof.
  exact (configuration_asserts Scenario.byte_encode Scenario.byte_decode
           Scenario.end_of_text Scenario.a_then_b Scenario.half Scenario.half
           10 Scenario.two_prefixes_one_slot).
Defined.

(** The three conditions alone do not say when the head of [generate]
    asserts: with [batch_size = 0] the first of them holds and the call
    ends in [ZeroDivisionError]; with two per-slot prefixes for a batch of
    one none of them holds and the call ends in an [AssertionError]. *)
Lemma asserts_beyond_three_conditions :
  (let a := Scenario.generate_defaults 1 0 3 in
   ~ (default 1 (batch_size a) | nsamples a) /\
   Scenario.run_generate 10 a = (Raise ZeroDivisionError, [])) /\
  (let a := Scenario.two_prefixes_one_slot in
   (default 1 (batch_size a) | nsamples a) /\
   ~ (str_truthy (prefix a) = true /\ list_truthy (batch_prefix a) = true) /\
   ~ (int_truthy (length a) = false /\ truncate a = None) /\
   Scenario.run_generate 10 a
   = (Raise (AssertionError AssertBatchPrefixLen), [])).
Proof.
  split; cbn zeta.
  - split; [|reflexivity]. intros [k Hk]. cbn in Hk. lia.
  - split; [exists 1; reflexivity|].
    split; [intros [H _]; discriminate H|].
    split; [intros [H _]; discriminate H|reflexivity].
Qed.


Lemma truncation_cuts_at_term_witness :
  let a := Scenario.truncate_at_ab in
  let st := Scenario.one_slot in
  let st' := snd (Scenario.run_slot a Scenario.with_term 0 st) in
  let out_i := Scenario.byte_encode "xxabyy" in
  heap st' !! 0%nat = Some ([] ++ [Scenario.byte_encode "xx"]) /\
  truncated st' !! 0%nat = Some true /\
  contains "ab" "xx" = false /\
  (exists before rest,
     Scenario.byte_decode (searched Scenario.half a st 0 [] out_i)
     = (before ++ "xx" ++ "ab" ++ rest)%string /\
     if str_truthy (prefix a) && negb (include_prefix a)
     then exists b, before = (b ++ default "" (prefix a))%string
     else before = "") /\
  (Scenario.byte_decode (Scenario.byte_encode "xx") = "xx" ->
   contains "ab" (lstrip_nl (Scenario.byte_decode (Scenario.byte_encode "xx")))
   = false).
Proof.
  intros a st st' out_i.
  apply (truncation_cuts_at_term Scenario.byte_encode Scenario.byte_decode
           Scenario.half Scenario.half
           a Scenario.with_term 0%nat st tt st' "ab" 0%nat [] out_i "xx");
    try (vm_compute; reflexivity).
  discriminate.
Defined.

(** The term can sit across two rounds: the model writes ["a"] 1022 times
    and then only ["b"]; no round holds ["ab"], the text returned does. *)
Lemma term_across_rounds_survives :
  exists text,
    fst (Scenario.run_generate 10 Scenario.truncate_at_ab) = Done (Some [text]) /\
    truncate Scenario.truncate_at_ab = Some "ab" /\
    contains "ab" text = true.
Proof.
  destruct (Scenario.run_generate 10 Scenario.truncate_at_ab) as [r tr] eqn:E.
  vm_compute in E. injection E as <- _.
  eexists. split; [reflexivity|]. split; [reflexivity|]. vm_compute. reflexivity.
Qed.

(** C2 on the code.  With two slots in a batch, slot 0 takes its text and is
    marked truncated; slot 1 then appends to the list slot 0 refers to,
    which grows from one chunk to two; both texts returned are the join of
    the two chunks. *)
Theorem truncated_slot_still_grows :
  let a := Scenario.generate_defaults 2 2 3 in
  let cell st i := deref (heap st) (default 0%nat (gen_text st !! i)) in
  exists st1 st2,
    Scenario.run_slot a Scenario.three_letters 0 Scenario.two_slots
    = (Done tt, st1) /\
    Scenario.run_slot a Scenario.three_letters 1 st1 = (Done tt, st2) /\
    truncated st1 !! 0%nat = Some true /\
    cell st1 0%nat = [[97; 97; 97]] /\
    cell st2 0%nat = [[97; 97; 97]; [97; 97]] /\
    fst (Scenario.run_generate 10 a) = Done (Some ["aaaaa"; "aaaaa"]).
Proof.
  cbn zeta.
  eexists _, _. split; [vm_compute; reflexivity|].
  split; [vm_compute; reflexivity|].
  repeat split.
Qed.

End GenerateFacts.

(** ** The training loop *)

Module FinetuneFacts.
Import Py PyFacts Finetune.

(** *** Binary64: dividing by one is exact *)





(** *** Runs of the loop *)

Section World.

Variable world : nat -> reply.

Lemma call_done e st v st' :
  call world e st = (Done v, st') ->
  world (clock st) = Ok v /\ st' = log e (tick st).
Proof.
  unfold call. destruct (world (clock st)); [|discriminate].
  now intros [= <- <-].
Qed.

Ltac calls_inv :=
  repeat match goal with
    | H : call _ _ _ = (Done _, _) |- _ =>
        apply call_done in H as [? ?]; subst
    end.

Lemma maketree_done st u st' :
  maketree world st = (Done u, st') ->
  st' = log EvMaketree (tick st) \/ st' = tick st.
Proof.
  unfold maketree, call. destruct (world (clock st)); intros [= <-]; auto.
Qed.

(** The three calls [save()] always ends with. *)
Definition save_events (c : Z) : list event :=
  [EvPrintSaving (c - 1); EvSave (c - 1);
   EvWriteCounter (str (c - 1) ++ String "010" "")].

Lemma save_done st u st' :
  save world st = (Done u, st') ->
  counter st' = counter st /\
  avg_loss st' = avg_loss st /\
  counter_file st' = Some (str (counter st - 1) ++ String "010" "")%string /\
  exists made, (made = [] \/ made = [EvMaketree]) /\
               trace st' = trace st ++ made ++ save_events (counter st).
Proof.
  unfold save. intros H. run_inv H. calls_inv.
  match goal with
  | Hm : maketree _ _ = _ |- _ => apply maketree_done in Hm as [-> | ->]
  end; cbn; repeat split;
    [exists [EvMaketree] | exists []]; cbn;
    rewrite <- ?app_assoc; auto.
Qed.

(** What the optimizer is asked to do in one iteration, in the words of the
    specification: with a factor [A > 1] a reset, [A] rounds of batch
    sampling and gradient computation, then one apply; otherwise one batch
    applied directly. *)
Definition optimizer_events (A : Z) : list event :=
  if 1 <? A
  then [EvReset] ++ concat (replicate (Z.to_nat A) [EvSampleBatch; EvCompute])
       ++ [EvApply]
  else [EvSampleBatch; EvTrainStep].

Definition optimizer_event (e : event) : bool :=
  match e with
  | EvReset | EvSampleBatch | EvCompute | EvApply | EvTrainStep => true
  | _ => false
  end.

(** A run that leaves the variables of [finetune] alone and only logs. *)
Definition logs (st st' : state) (evs : list event) : Prop :=
  counter st' = counter st /\ avg_loss st' = avg_loss st /\
  counter_file st' = counter_file st /\ trace st' = trace st ++ evs.

Lemma logs_call e st : logs st (log e (tick st)) [e].
Proof. now repeat split. Qed.

Lemma logs_trans st1 st2 st3 evs evs' :
  logs st1 st2 evs -> logs st2 st3 evs' -> logs st1 st3 (evs ++ evs').
Proof.
  intros (? & ? & ? & ?) (? & ? & ? & ?). repeat split; try congruence.
  rewrite app_assoc. congruence.
Qed.

Lemma accumulate_done n st u st' :
  accumulate world n st = (Done u, st') ->
  logs st st' (concat (replicate n [EvSampleBatch; EvCompute])).
Proof.
  revert st. induction n as [|n IH]; cbn [accumulate]; intros st H; run_inv H.
  - repeat split. cbn. now rewrite app_nil_r.
  - calls_inv. apply IH in H.
    apply (logs_trans _ _ _ [EvSampleBatch; EvCompute] _ (logs_trans _ _ _ _ _ (logs_call _ _) (logs_call _ _)) H).
Qed.

Lemma optimise_done acc st v st' :
  optimise world acc st = (Done v, st') ->
  logs st st' (optimizer_events acc).
Proof.
  unfold optimise, optimizer_events. intros H.
  destruct (1 <? acc); run_inv H; calls_inv.
  - match goal with
    | Ha : accumulate _ _ _ = _ |- _ => apply accumulate_done in Ha
    end.
    eapply logs_trans; [apply logs_call|].
    eapply logs_trans; [eassumption|apply logs_call].
  - apply (logs_trans _ _ _ [_] [_] (logs_call _ _) (logs_call _ _)).
Qed.

Definition due (c every : Z) : bool := ((c - 1) mod every =? 0) && (1 <? c).

Definition iteration_events (p : params) (acc : Z) (st : state)
  (made : list event) (v : float) : list event :=
  (if due (counter st) (save_every p)
   then made ++ save_events (counter st) else [])
  ++ (if due (counter st) (sample_every p)
      then [EvGenerateSamples (counter st)] else [])
  ++ optimizer_events acc
  ++ [EvSummary (counter st)]
  ++ (if counter st mod print_every p =? 0
      then [EvPrintLoss (counter st) v (reported (update_avg (avg_loss st) v))]
      else []).

Lemma iteration_done p acc cb st st' :
  iteration world p acc cb st = (Done false, st') ->
  print_every p <> 0 /\
  exists v made s1 s2,
    optimise world acc s1 = (Done v, s2) /\
    (made = [] \/ made = [EvMaketree]) /\
    trace st' = trace st ++ iteration_events p acc st made v /\
    counter st' = counter st + 1 /\
    avg_loss st' = if counter st mod print_every p =? 0
                   then update_avg (avg_loss st) v else avg_loss st.
Proof.
  unfold iteration, py_mod. intros H. run_inv H; try congruence.
  all: calls_inv.
  all: repeat match goal with
         | Hs : save _ _ = _ |- _ =>
             apply save_done in Hs as (? & ? & _ & ? & ? & ?)
         end.
  all: match goal with
       | Ho : optimise _ _ _ = _ |- _ =>
           pose proof (optimise_done _ _ _ _ Ho) as (? & ? & ? & ?)
       end.
  all: split; [lia|].
  all: unfold iteration_events, due.
  all: repeat match goal with
         | Hb : ?b = _ |- context [if ?b then _ else _] => rewrite Hb
         end.
  all: do 4 eexists; split; [eassumption|].
  all: cbn [trace counter avg_loss log tick set_counter set_avg_loss] in *.
  all: split; [first [eassumption | left; reflexivity]|].
  all: match goal with
       | |- context [avg_loss ?s] =>
           replace (avg_loss s) with (avg_loss st) by congruence
       end.
  all: repeat match goal with
         | Ht : trace ?s = _ |- context [trace ?s] => rewrite Ht
         end.
  all: rewrite <- ?app_assoc; cbn [app]; rewrite ?app_nil_r.
  all: repeat split; congruence.
Qed.

Lemma iteration_returns p acc cb st st' :
  iteration world p acc cb st = (Done true, st') ->
  0 < steps p /\ counter st = cb + steps p /\
  save world st = (Done tt, st').
Proof.
  unfold iteration, py_mod. intros H. run_inv H; try congruence.
  match goal with
  | Hb : _ && _ = true |- _ =>
      apply andb_true_iff in Hb as [?%Z.ltb_lt ?%Z.eqb_eq]
  end.
  match goal with
  | Hs : save _ _ = (Done ?a, _) |- _ => destruct a
  end.
  auto.
Qed.

Lemma loop_done fuel p acc cb st u st' :
  loop world fuel p acc cb st = (Done u, st') ->
  0 < steps p /\ counter st' = cb + steps p /\
  counter_file st' = Some (str (counter st' - 1) ++ String "010" "")%string /\
  exists tr, trace st' = tr ++ save_events (counter st').
Proof.
  revert st. induction fuel as [|fuel IH]; intros st H; [discriminate|].
  cbn [loop] in H. run_inv H; [|now apply IH in H].
  match goal with
  | Hi : iteration _ _ _ _ _ = _ |- _ =>
      apply iteration_returns in Hi as (? & ? & Hs)
  end.
  apply save_done in Hs as (Hc & _ & Hf & made & _ & Ht).
  rewrite Hc. repeat split; try assumption.
  exists (trace st ++ made). now rewrite <- app_assoc.
Qed.

Lemma start_done p st cb st' :
  start world p st = (Done cb, st') ->
  start_counter (restore_from p) (counter_file st) = Done cb /\
  counter st' = cb /\ avg_loss st' = (0, 0)%float.
Proof.
  unfold start. intros H. run_inv H; (split; [assumption|]); [|now cbn].
  calls_inv.
  match goal with
  | Hs : save _ _ = _ |- _ => apply save_done in Hs as (Hc & _)
  end.
  cbn in *. now rewrite Hc.
Qed.

End World.

Lemma optimizer_events_accumulating A :
  1 < A ->
  optimizer_events A
  = [EvReset] ++ concat (replicate (Z.to_nat A) [EvSampleBatch; EvCompute])
    ++ [EvApply].
Proof. intros H%Z.ltb_lt. unfold optimizer_events. now rewrite H. Qed.

Lemma optimizer_events_direct A :
  A <= 1 -> optimizer_events A = [EvSampleBatch; EvTrainStep].
Proof.
  intros H. unfold optimizer_events.
  now destruct (Z.ltb_spec 1 A); [lia|].
Qed.

Lemma save_events_plain c :
  Forall (fun e => optimizer_event e = false) (save_events c).
Proof. repeat constructor. Qed.

(** C5. [save()] leaves [str(counter-1)] and a newline in the counter file,
    written by its last call; a run that resumes from that file (the file
    exists and [restore_from] is ['latest']) reads the number back and
    enters the training loop with its counter at that number plus one. *)
Theorem save_then_resume (world world' : nat -> reply) (p : params) st u st' :
  save world st = (Done u, st') ->
  restore_from p = "latest" ->
  counter_file st' = Some (str (counter st - 1) ++ String "010" "")%string /\
  last (trace st') = Some (EvWriteCounter (str (counter st - 1) ++ String "010" "")) /\
  start_counter (restore_from p) (counter_file st') = Done (counter st - 1 + 1) /\
  forall cb st2,
    start world' p (entry (counter_file st')) = (Done cb, st2) ->
    cb = counter st - 1 + 1 /\ counter st2 = counter st - 1 + 1.
Proof.
  intros Hsave Hlatest.
  apply save_done in Hsave as (_ & _ & Hfile & made & _ & Htrace).
  assert (Hstart : start_counter (restore_from p) (counter_file st')
                   = Done (counter st - 1 + 1)).
  { rewrite Hfile, Hlatest. cbn [start_counter String.eqb].
    change ("latest" =? "latest")%string with true. cbn iota.
    now rewrite int_str_newline. }
  repeat split; try assumption.
  - rewrite Htrace. unfold save_events.
    rewrite !app_assoc.
    change [EvPrintSaving (counter st - 1); EvSave (counter st - 1);
            EvWriteCounter (str (counter st - 1) ++ String "010" "")]
      with ([EvPrintSaving (counter st - 1); EvSave (counter st - 1)]
            ++ [EvWriteCounter (str (counter st - 1) ++ String "010" "")]).
    rewrite app_assoc. apply last_snoc.
  - apply start_done in H as (Hc & _). cbn in Hc. congruence.
  - apply start_done in H as (Hc & <- & _). cbn in Hc. congruence.
Qed.


Lemma save_then_resume_witness :
  let st := Scenario.at_step_42 in
  let st' := snd (save Scenario.calm st) in
  counter_file st' = Some (str (counter st - 1) ++ String "010" "")%string /\
  last (trace st') = Some (EvWriteCounter (str (counter st - 1) ++ String "010" "")) /\
  start_counter (restore_from (Scenario.training_defaults 0)) (counter_file st')
  = Done (counter st - 1 + 1) /\
  forall cb st2,
    start Scenario.calm (Scenario.training_defaults 0) (entry (counter_file st'))
    = (Done cb, st2) ->
    cb = counter st - 1 + 1 /\ counter st2 = counter st - 1 + 1.
Proof.
  intros st st'.
  apply (save_then_resume Scenario.calm Scenario.calm
           (Scenario.training_defaults 0) st tt st'); reflexivity.
Defined.






(** The three ways out, each on a run. *)
Example budget_reached :
  let '(r, st) := training Scenario.calm 5 (Scenario.training_defaults 2) 1 1
                    (entry None) in
  r = Done tt /\ counter st = 3 /\
  trace st = [EvSampleBatch; EvTrainStep; EvSummary 1; EvPrintLoss 1 2.5 2.5;
              EvSampleBatch; EvTrainStep; EvSummary 2; EvPrintLoss 2 2.5 2.5;
              EvMaketree; EvPrintSaving 2; EvSave 2;
              EvWriteCounter (String "2" (String "010" ""))].
Proof. vm_compute. auto. Qed.

Example interrupted_then_saved :
  let '(r, st) := training (Scenario.failing 5 KeyboardInterrupt) 5
                    (Scenario.training_defaults 0) 1 1 (entry None) in
  r = Done tt /\ counter st = 2 /\
  trace st = [EvSampleBatch; EvTrainStep; EvSummary 1; EvPrintLoss 1 2.5 2.5;
              EvSampleBatch; EvPrintInterrupted;
              EvMaketree; EvPrintSaving 1; EvSave 1;
              EvWriteCounter (String "1" (String "010" ""))].
Proof. vm_compute. auto. Qed.

Example failure_propagates :
  let '(r, st) := training (Scenario.failing 5 (ServiceError 7)) 5
                    (Scenario.training_defaults 0) 1 1 (entry None) in
  r = Raise (ServiceError 7) /\ counter st = 2 /\
  trace st = [EvSampleBatch; EvTrainStep; EvSummary 1; EvPrintLoss 1 2.5 2.5;
              EvSampleBatch].
Proof. vm_compute. auto. Qed.

(** C9.  An iteration that runs to its end asks the optimizer for exactly
    the events of [optimizer_events]: with [accumulate_gradients = A > 1]
    one reset, then [A] rounds of batch sampling and gradient computation,
    then one apply; with [A <= 1] one sampled batch applied directly.
    Nothing else in the iteration touches the optimizer. *)
Theorem accumulation_rounds world p A cb st st' :
  iteration world p A cb st = (Done false, st') ->
  exists pre post,
    trace st' = trace st ++ pre ++ optimizer_events A ++ post /\
    Forall (fun e => optimizer_event e = false) pre /\
    Forall (fun e => optimizer_event e = false) post /\
    (1 < A ->
     optimizer_events A
     = [EvReset] ++ concat (replicate (Z.to_nat A) [EvSampleBatch; EvCompute])
       ++ [EvApply]) /\
    (A <= 1 -> optimizer_events A = [EvSampleBatch; EvTrainStep]).
Proof.
  intros H.
  apply iteration_done in H as (_ & v & made & _ & _ & _ & Hm & Ht & _).
  unfold iteration_events in Ht. rewrite Ht.
  exists ((if due (counter st) (save_every p)
           then made ++ save_events (counter st) else [])
          ++ (if due (counter st) (sample_every p)
              then [EvGenerateSamples (counter st)] else [])),
         ([EvSummary (counter st)]
          ++ (if counter st mod print_every p =? 0
              then [EvPrintLoss (counter st) v
                      (reported (update_avg (avg_loss st) v))]
              else [])).
  split; [now rewrite <- !app_assoc|].
  split; [|split; [|split]].
  - apply Forall_app. split.
    + destruct (due (counter st) (save_every p)); [|constructor].
      apply Forall_app. split; [|apply save_events_plain].
      destruct Hm as [-> | ->]; repeat constructor.
    + destruct (due (counter st) (sample_every p)); repeat constructor.
  - apply Forall_app. split; [repeat constructor|].
    destruct (counter st mod print_every p =? 0); repeat constructor.
  - apply optimizer_events_accumulating.
  - apply optimizer_events_direct.
Qed.

Lemma accumulation_rounds_witness :
  let st := entry None in
  let st' := snd (iteration Scenario.calm (Scenario.training_defaults 0) 3 1 st) in
  exists pre post,
    trace st' = trace st ++ pre ++ optimizer_events 3 ++ post /\
    Forall (fun e => optimizer_event e = false) pre /\
    Forall (fun e => optimizer_event e = false) post /\
    (1 < 3 ->
     optimizer_events 3
     = [EvReset] ++ concat (replicate (Z.to_nat 3) [EvSampleBatch; EvCompute])
       ++ [EvApply]) /\
    (3 <= 1 -> optimizer_events 3 = [EvSampleBatch; EvTrainStep]).
Proof.
  intros st st'.
  apply (accumulation_rounds Scenario.calm (Scenario.training_defaults 0) 3 1 st st').
  reflexivity.
Defined.

(** [accumulate_gradients=3]: three rounds, then one apply. *)
Example three_rounds_one_apply :
  trace (snd (iteration Scenario.calm (Scenario.training_defaults 0) 3 1 (entry None)))
  = [EvReset; EvSampleBatch; EvCompute; EvSampleBatch; EvCompute;
     EvSampleBatch; EvCompute; EvApply; EvSummary 1; EvPrintLoss 1 2.5 2.5].
Proof. reflexivity. Qed.

(** For a model other than 117M and 124M the loop runs with the factor 1,
    whatever [accumulate_gradients] was passed. *)
Lemma accumulation_forced_off p :
  small_model p = false -> effective_accumulate p = 1.
Proof. unfold effective_accumulate. now intros ->. Qed.


End FinetuneFacts.

(** ** More on the training loop *)

Module TrainingFacts.
Import Py PyFacts Finetune FinetuneFacts.

(** A run that ends normally from every state. *)
Definition succeeds {S A} (m : M S A) : Prop :=
  forall s, exists a s', m s = (Done a, s').

Lemma succeeds_ret {S A} (a : A) : succeeds (S:=S) (ret a).
Proof. intros s. now exists a, s. Qed.

Lemma succeeds_get {S} : succeeds (S:=S) get.
Proof. intros s. now exists s, s. Qed.

Lemma succeeds_modify {S} (f : S -> S) : succeeds (modify f).
Proof. intros s. now exists tt, (f s). Qed.

Lemma succeeds_bind {S A B} (m : M S A) (k : A -> M S B) :
  succeeds m -> (forall a, succeeds (k a)) -> succeeds (bind m k).
Proof.
  intros Hm Hk s. destruct (Hm s) as (a & s1 & E).
  destruct (Hk a s1) as (b & s2 & E'). exists b, s2.
  unfold bind. now rewrite E.
Qed.

Ltac succeed_with known :=
  repeat first
    [ known
    | apply succeeds_ret
    | apply succeeds_get
    | apply succeeds_modify
    | apply succeeds_bind; [| intros ?]
    | match goal with
      | |- succeeds (if ?b then _ else _) => destruct b
      end ].

Section Calm.

(** A world in which no call fails. *)
Variable world : nat -> reply.
Variable loss : nat -> float.
Hypothesis calm : forall n, world n = Ok (loss n).

Lemma call_succeeds e : succeeds (call world e).
Proof.
  intros s. exists (loss (clock s)), (log e (tick s)).
  unfold call. now rewrite calm.
Qed.

Lemma maketree_succeeds : succeeds (maketree world).
Proof.
  intros s. exists tt, (log EvMaketree (tick s)).
  unfold maketree, call. now rewrite calm.
Qed.

Lemma save_succeeds : succeeds (save world).
Proof.
  unfold save.
  succeed_with ltac:(first [apply call_succeeds | apply maketree_succeeds]).
Qed.

Lemma accumulate_succeeds n : succeeds (accumulate world n).
Proof.
  induction n as [|n IH]; cbn [accumulate];
    succeed_with ltac:(first [apply call_succeeds | exact IH]).
Qed.

Lemma optimise_succeeds acc : succeeds (optimise world acc).
Proof.
  unfold optimise.
  succeed_with ltac:(first [apply call_succeeds | apply accumulate_succeeds]).
Qed.

Lemma py_mod_succeeds a b : b <> 0 -> succeeds (py_mod a b).
Proof.
  intros Hb s. unfold py_mod. destruct (Z.eqb_spec b 0); [contradiction|].
  now exists (a mod b), s.
Qed.


(** The number of optimizer updates in a trace. *)
Definition updates (tr : list event) : nat :=
  List.length
    (List.filter (fun e => match e with
                           | EvApply | EvTrainStep => true
                           | _ => false
                           end) tr).

Lemma updates_app tr tr' : updates (tr ++ tr') = (updates tr + updates tr')%nat.
Proof. unfold updates. now rewrite List.filter_app, length_app. Qed.

Lemma updates_rounds n :
  updates (concat (replicate n [EvSampleBatch; EvCompute])) = 0%nat.
Proof. induction n as [|n IH]; [reflexivity|exact IH]. Qed.

Lemma updates_optimizer_events A : updates (optimizer_events A) = 1%nat.
Proof.
  unfold optimizer_events. destruct (1 <? A); [|reflexivity].
  rewrite !updates_app, updates_rounds. reflexivity.
Qed.


Lemma updates_save_events made c :
  made = [] \/ made = [EvMaketree] -> updates (made ++ save_events c) = 0%nat.
Proof. now intros [-> | ->]. Qed.











Lemma bind_after {S A B} (m : M S A) (k : A -> M S B) s :
  succeeds m -> exists a s1, m s = (Done a, s1) /\ bind m k s = k a s1.
Proof.
  intros Hm. destruct (Hm s) as (a & s1 & E). exists a, s1.
  split; [exact E|]. unfold bind. now rewrite E.
Qed.

Lemma periodic_save_succeeds (b : bool) :
  succeeds (if b then save world else ret tt).
Proof. destruct b; [apply save_succeeds | apply succeeds_ret]. Qed.

Lemma periodic_samples_succeeds (b : bool) c :
  succeeds (if b then call world (EvGenerateSamples c) ;;; ret tt else ret tt).
Proof.
  destruct b; succeed_with ltac:(apply call_succeeds).
Qed.

(** The periodic part of an iteration makes no optimizer update. *)
Lemma periodic_save_quiet (b : bool) st u st' :
  (if b then save world else ret tt) st = (Done u, st') ->
  counter st' = counter st /\ avg_loss st' = avg_loss st /\
  exists evs, trace st' = trace st ++ evs /\ updates evs = 0%nat.
Proof.
  destruct b.
  - intros H. apply save_done in H as (Hc & Ha & _ & made & Hm & Ht).
    repeat split; try assumption.
    eexists. split; [exact Ht|]. now apply updates_save_events.
  - intros [= <- <-]. repeat split. exists []. now rewrite app_nil_r.
Qed.

Lemma periodic_samples_quiet (b : bool) c st u st' :
  (if b then call world (EvGenerateSamples c) ;;; ret tt else ret tt) st
  = (Done u, st') ->
  counter st' = counter st /\ avg_loss st' = avg_loss st /\
  exists evs, trace st' = trace st ++ evs /\ updates evs = 0%nat.
Proof.
  destruct b.
  - intros H. run_inv H.
    match goal with
    | Hc : call _ _ _ = _ |- _ => apply call_done in Hc as [_ ->]
    end.
    repeat split. now exists [EvGenerateSamples c].
  - intros [= <- <-]. repeat split. exists []. now rewrite app_nil_r.
Qed.

Lemma optimise_updates acc st v st' :
  optimise world acc st = (Done v, st') ->
  counter st' = counter st /\ avg_loss st' = avg_loss st /\
  exists evs, trace st' = trace st ++ evs /\ updates evs = 1%nat.
Proof.
  intros H. apply optimise_done in H as (Hc & Ha & Hf & Ht).
  repeat split; try assumption.
  exists (optimizer_events acc). split; [exact Ht|apply updates_optimizer_events].
Qed.

End Calm.



(** X2.  Without a positive step budget ([steps <= 0], the default is -1)
    the loop never returns by itself, whatever the fuel and the world:
    the training returns only through the handler of [KeyboardInterrupt],
    and its last calls are those of [save()]. *)
Theorem no_budget_no_return world fuel p acc cb st u st' :
  steps p <= 0 ->
  training world fuel p acc cb st = (Done u, st') ->
  exists st1 made,
    loop world fuel p acc cb st = (Raise KeyboardInterrupt, st1) /\
    (made = [] \/ made = [EvMaketree]) /\
    trace st' = trace st1 ++ [EvPrintInterrupted] ++ made
                ++ save_events (counter st1).
Proof.
  intros Hs. unfold training.
  destruct (loop world fuel p acc cb st) as [[[]|e|] st1] eqn:El.
  - apply loop_done in El as (? & _). lia.
  - destruct e; try discriminate.
    intros H. run_inv H.
    match goal with
    | Hc : call _ _ _ = _ |- _ => apply call_done in Hc as [_ ->]
    end.
    apply save_done in H as (Hc & _ & _ & made & Hm & Ht).
    exists st1, made. split; [reflexivity|]. split; [exact Hm|].
    rewrite Ht. cbn. now rewrite <- app_assoc.
  - discriminate.
Qed.

Lemma no_budget_no_return_witness :
  let w := Scenario.failing 5 KeyboardInterrupt in
  let p := Scenario.training_defaults 0 in
  let st := entry None in
  let st' := snd (training w 5 p 1 1 st) in
  exists st1 made,
    loop w 5 p 1 1 st = (Raise KeyboardInterrupt, st1) /\
    (made = [] \/ made = [EvMaketree]) /\
    trace st' = trace st1 ++ [EvPrintInterrupted] ++ made
                ++ save_events (counter st1).
Proof.
  intros w p st st'.
  apply (no_budget_no_return w 5 p 1 1 st tt st'); [discriminate|].
  vm_compute. reflexivity.
Defined.


Ltac step_with lem :=
  match goal with
  | |- context [bind ?m ?k ?s] =>
      let a := fresh "a" in
      let s1 := fresh "s" in
      let E := fresh "E" in
      let Eb := fresh "Eb" in
      destruct (bind_after m k s lem) as (a & s1 & E & Eb);
      rewrite Eb; clear Eb; cbn beta
  end.

Lemma py_mod_pure a b st r st' : py_mod a b st = (Done r, st') -> st' = st.
Proof. unfold py_mod. destruct (b =? 0); now intros [= _ <-]. Qed.

Lemma iteration_zero_interval world loss p acc cb st :
  (forall n, world n = Ok (loss n)) ->
  steps p <= 0 ->
  save_every p = 0 \/ sample_every p = 0 \/ print_every p = 0 ->
  exists st',
    iteration world p acc cb st = (Raise ZeroDivisionError, st') /\
    counter st' = counter st /\ avg_loss st' = avg_loss st /\
    exists evs, trace st' = trace st ++ evs /\
                updates evs
                = if (save_every p =? 0) || (sample_every p =? 0)
                  then 0%nat else 1%nat.
Proof.
  intros calm Hs H0. unfold iteration. unfold bind at 1, get.
  assert (Hb : (0 <? steps p) && (counter st =? cb + steps p) = false).
  { apply andb_false_iff. left. apply Z.ltb_ge. lia. }
  rewrite Hb.
  destruct (Z.eqb_spec (save_every p) 0) as [H1|H1].
  { unfold bind at 1, py_mod. rewrite H1. cbn.
    exists st. repeat split. exists []. now rewrite app_nil_r. }
  step_with (py_mod_succeeds (counter st - 1) (save_every p) H1).
  apply py_mod_pure in E as ->.
  step_with (periodic_save_succeeds world loss calm ((a =? 0) && (1 <? counter st))).
  apply periodic_save_quiet in E as (Hc1 & Ha1 & ev1 & Ht1 & Hu1).
  destruct (Z.eqb_spec (sample_every p) 0) as [H2|H2].
  { unfold bind at 1, py_mod. rewrite H2. cbn.
    eexists. split; [reflexivity|]. repeat split; try assumption.
    now exists ev1. }
  destruct H0 as [H0 | [H0 | H3]]; [contradiction..|].
  step_with (py_mod_succeeds (counter st - 1) (sample_every p) H2).
  apply py_mod_pure in E as ->.
  step_with (periodic_samples_succeeds world loss calm
               ((a1 =? 0) && (1 <? counter st)) (counter st)).
  apply periodic_samples_quiet in E as (Hc2 & Ha2 & ev2 & Ht2 & Hu2).
  step_with (optimise_succeeds world loss calm acc).
  apply optimise_updates in E as (Hc3 & Ha3 & ev3 & Ht3 & Hu3).
  step_with (call_succeeds world loss calm (EvSummary (counter st))).
  apply call_done in E as [_ ->].
  unfold bind at 1, py_mod. rewrite H3. cbn.
  eexists. split; [reflexivity|]. cbn.
  split; [congruence|]. split; [congruence|].
  exists (ev1 ++ ev2 ++ ev3 ++ [EvSummary (counter st)]).
  split.
  - rewrite Ht3, Ht2, Ht1. now rewrite <- !app_assoc.
  - rewrite !updates_app, Hu1, Hu2, Hu3. reflexivity.
Qed.

(** X3.  A zero interval is not rejected when [finetune] starts.  In a
    world where no call fails and without a step budget, the first pass
    through the loop raises [ZeroDivisionError], which the handler of
    [KeyboardInterrupt] lets through, and the counter stays where it was.
    When it is [print_every] that is zero, the optimizer update of that
    pass has already been made. *)
Theorem zero_interval_fails world loss fuel p acc cb st :
  (forall n, world n = Ok (loss n)) ->
  steps p <= 0 ->
  save_every p = 0 \/ sample_every p = 0 \/ print_every p = 0 ->
  exists st',
    training world (S fuel) p acc cb st = (Raise ZeroDivisionError, st') /\
    counter st' = counter st /\ avg_loss st' = avg_loss st /\
    exists evs, trace st' = trace st ++ evs /\
                updates evs
                = if (save_every p =? 0) || (sample_every p =? 0)
                  then 0%nat else 1%nat.
Proof.
  intros calm Hs H0.
  destruct (iteration_zero_interval world loss p acc cb st calm Hs H0)
    as (st' & E & H).
  exists st'. split; [|exact H].
  unfold training. cbn [loop]. unfold bind at 1. now rewrite E.
Qed.

Lemma zero_interval_fails_witness :
  let p := Scenario.no_printing in
  let st := entry None in
  exists st',
    training Scenario.calm 3 p 1 1 st = (Raise ZeroDivisionError, st') /\
    counter st' = counter st /\ avg_loss st' = avg_loss st /\
    exists evs, trace st' = trace st ++ evs /\
                updates evs
                = if (save_every p =? 0) || (sample_every p =? 0)
                  then 0%nat else 1%nat.
Proof.
  intros p st.
  apply (zero_interval_fails Scenario.calm (fun _ => 2.5%float) 2 p 1 1 st).
  - reflexivity.
  - discriminate.
  - right. right. reflexivity.
Defined.


(** X4.  With [overwrite=True] and [restore_from='latest'] on a
    run whose counter file holds [n], [finetune] removes the old model and
    event files, saves a checkpoint for step [n] and writes [n] back to
    the counter file; the counter resumes at [n + 1] as it would without
    [overwrite]. *)
Theorem overwrite_keeps_counter world p content n st cb st' :
  overwrite p = true -> restore_from p = "latest"%string ->
  counter_file st = Some content -> int content = Done n ->
  start world p st = (Done cb, st') ->
  cb = n + 1 /\ counter st' = n + 1 /\
  counter_file st' = Some (str n ++ String "010" "")%string /\
  exists made,
    (made = [] \/ made = [EvMaketree]) /\
    trace st' = trace st ++ [EvRemoveFiles] ++ made ++ save_events (n + 1).
Proof.
  intros Ho Hr Hf Hn H. unfold start in H. rewrite Ho, Hr in H.
  run_inv H.
  all: try match goal with
         | Hb : true && _ = false |- _ => cbn in Hb; discriminate
         end.
  match goal with
  | Hc : start_counter _ _ = _ |- _ =>
      unfold start_counter in Hc; rewrite Hf, Hn in Hc; cbn in Hc;
      injection Hc as <-
  end.
  all: match goal with
       | Hc : call _ _ _ = _ |- _ => apply call_done in Hc as [_ ->]
       end.
  all: match goal with
       | Hs : save _ _ = _ |- _ =>
           apply save_done in Hs as (Hc & _ & Hcf & made & Hm & Ht)
       end.
  all: cbn in *.
  all: replace (n + 1 - 1) with n in * by lia.
  all: repeat split; try assumption.
  all: exists made; split; [assumption|].
  all: rewrite Ht; now rewrite <- !app_assoc.
Qed.

Lemma overwrite_keeps_counter_witness :
  let st := entry (Some ("41" ++ String "010" ""))%string in
  let st' := snd (start Scenario.calm Scenario.overwriting st) in
  43 - 1 = 41 + 1 /\ counter st' = 41 + 1 /\
  counter_file st' = Some (str 41 ++ String "010" "")%string /\
  exists made,
    (made = [] \/ made = [EvMaketree]) /\
    trace st' = trace st ++ [EvRemoveFiles] ++ made ++ save_events (41 + 1).
Proof.
  intros st st'.
  apply (overwrite_keeps_counter Scenario.calm Scenario.overwriting
           ("41" ++ String "010" "")%string 41 st (43 - 1) st');
    try reflexivity.
Defined.






End TrainingFacts.

(** ** More on the sampling loop *)

Module SamplingFacts.
Import Py PyFacts Generate GenerateFacts.

(** The events on the destination file's handle. *)
Definition handles (tr : list event) : list event :=
  List.filter (fun e => match e with
                        | EvOpen _ | EvClose => true
                        | _ => false
                        end) tr.

Definition same_handles (st st' : state) : Prop :=
  handles (trace st') = handles (trace st).

#[local] Instance same_handles_preorder : PreOrder same_handles.
Proof.
  split.
  - intros st. reflexivity.
  - intros s1 s2 s3 H1 H2. unfold same_handles in *. congruence.
Qed.

Lemma handles_app tr tr' : handles (tr ++ tr') = handles tr ++ handles tr'.
Proof. apply List.filter_app. Qed.

Section Services.

Variable encode : string -> list token.
Variable decode : list token -> string.
Variable endoftext : token.
Variable sess_run : nat -> Z -> list (list token) -> list (list token).
Variable cut_context : Z -> Z.
Variable cut_text : Z -> Z.

Abbreviation slot := (slot encode decode cut_context cut_text).
Abbreviation for_slots := (for_slots encode decode cut_context cut_text).
Abbreviation sample_step := (sample_step encode decode sess_run cut_context cut_text).
Abbreviation sampling := (sampling encode decode sess_run cut_context cut_text).
Abbreviation batch := (batch encode decode sess_run cut_context cut_text).
Abbreviation batches := (batches encode decode sess_run cut_context cut_text).
Abbreviation generate_body :=
  (generate_body encode decode endoftext sess_run cut_context cut_text).
Abbreviation generate :=
  (generate encode decode endoftext sess_run cut_context cut_text).

Ltac quiet_modify :=
  apply preserves_modify; intros ?; unfold same_handles; cbn;
  rewrite ?handles_app; cbn; rewrite ?app_nil_r; reflexivity.

Lemma slot_handles a out i : preserves same_handles (slot a out i).
Proof.
  unfold Generate.slot, continue_and_truncate. preserve.
  all: try typeclasses eauto.
  all: quiet_modify.
Qed.

Lemma for_slots_handles a out slots :
  preserves same_handles (for_slots a out slots).
Proof.
  induction slots as [|i slots IH]; cbn [Generate.for_slots];
    preserve_with ltac:(first [apply slot_handles | exact IH]);
    typeclasses eauto.
Qed.

Lemma sample_step_handles a bs : preserves same_handles (sample_step a bs).
Proof.
  unfold Generate.sample_step.
  preserve_with ltac:(apply for_slots_handles); try typeclasses eauto.
  all: quiet_modify.
Qed.

Lemma sampling_handles fuel a bs : preserves same_handles (sampling fuel a bs).
Proof.
  induction fuel as [|fuel IH]; cbn [Generate.sampling];
    preserve_with ltac:(first [apply sample_step_handles | exact IH]);
    typeclasses eauto.
Qed.

Lemma emit_handles a l : preserves same_handles (emit decode a l).
Proof.
  unfold emit. preserve. all: try typeclasses eauto. all: quiet_modify.
Qed.

Lemma for_gens_handles a gens : preserves same_handles (for_gens decode a gens).
Proof.
  induction gens as [|l gens IH]; cbn [for_gens];
    preserve_with ltac:(first [apply emit_handles | exact IH]);
    typeclasses eauto.
Qed.

Lemma batch_handles fuel a bs : preserves same_handles (batch fuel a bs).
Proof.
  unfold Generate.batch.
  preserve_with ltac:(first [apply sampling_handles | apply for_gens_handles]).
  all: try typeclasses eauto. all: quiet_modify.
Qed.

Lemma batches_handles fuel a bs : preserves same_handles (batches fuel a bs).
Proof.
  induction fuel as [|fuel IH]; cbn [Generate.batches];
    preserve_with ltac:(first [apply batch_handles | exact IH]);
    typeclasses eauto.
Qed.

(** X7.  [generate] opens the file once the checks of
    its head have passed and a destination is set, and closes it only on
    the way to its [return]: a call that ends in an exception after the
    file is open leaves it open. *)
Theorem file_closed_on_return_only fuel a r tr :
  generate fuel a = (r, tr) ->
  handles tr
  = match preamble a, destination_path a with
    | Done _, Some (String _ _ as path) =>
        EvOpen path :: match r with Done _ => [EvClose] | _ => [] end
    | _, _ => []
    end.
Proof.
  unfold Generate.generate.
  destruct (Generate.generate_body _ _ _ _ _ _ fuel a entry) as [r' st] eqn:H.
  intros [= -> <-]. unfold Generate.generate_body in H.
  unfold bind at 1, lift in H.
  destruct (preamble a) as [a'| |] eqn:Hp; try (injection H as <- <-; reflexivity).
  apply preamble_done in Hp as (_ & _ & _ & _ & Hd & _).
  rewrite <- Hd.
  unfold bind at 1, modify in H. unfold bind at 1 in H.
  match type of H with
  | context [Generate.batches _ _ _ _ _ ?f ?a ?bs] =>
      pose proof (batches_handles f a bs) as Hb
  end.
  destruct (destination_path a') as [[|c path]|]; cbn in H.
  all: unfold bind at 1 in H.
  all: match type of H with
       | context [Generate.batches _ _ _ _ _ _ _ _ ?s] =>
           specialize (Hb s);
           destruct (Generate.batches _ _ _ _ _ _ _ _ s) as [[u|e|] s1]
       end.
  all: unfold same_handles in Hb; cbn in Hb, H.
  all: injection H as <- <-; cbn; rewrite ?handles_app, ?Hb; reflexivity.
Qed.


(** *** The texts of a batch *)

Lemma slot_gen_text a out i st u st' :
  slot a out i st = (Done u, st') -> gen_text st' = gen_text st.
Proof.
  unfold Generate.slot, continue_and_truncate. intros H. run_inv H.
  all: cbn [gen_text set_gen_text set_heap set_truncated set_context_tokens].
  all: try reflexivity.
  all: now apply list_insert_id.
Qed.

Lemma for_slots_gen_text a out slots st u st' :
  for_slots a out slots st = (Done u, st') -> gen_text st' = gen_text st.
Proof.
  revert st. induction slots as [|i slots IH]; cbn [Generate.for_slots];
    intros st H; run_inv H; [reflexivity|].
  match goal with
  | Hs : Generate.slot _ _ _ _ _ _ _ _ = _ |- _ => apply slot_gen_text in Hs
  end.
  apply IH in H. congruence.
Qed.

Lemma sample_step_gen_text a bs st u st' :
  sample_step a bs st = (Done u, st') -> gen_text st' = gen_text st.
Proof.
  unfold Generate.sample_step. intros H. run_inv H.
  apply for_slots_gen_text in H. exact H.
Qed.

Lemma sampling_gen_text fuel a bs st u st' :
  sampling fuel a bs st = (Done u, st') -> gen_text st' = gen_text st.
Proof.
  revert st. induction fuel as [|fuel IH]; intros st H; [discriminate|].
  cbn [Generate.sampling] in H. run_inv H; [|reflexivity].
  apply IH in H. rewrite H.
  match goal with
  | Hs : Generate.sample_step _ _ _ _ _ _ _ _ = _ |- _ =>
      now apply sample_step_gen_text in Hs
  end.
Qed.

Lemma batch_copies fuel a bs st u st' :
  batch fuel a bs st = (Done u, st') ->
  exists text, gen_texts st' = gen_texts st ++ replicate (Z.to_nat bs) text.
Proof.
  unfold Generate.batch. intros H. run_inv H.
  match goal with
  | Hs : sampling ?f _ _ ?s1 = (Done _, ?s2) |- _ =>
      pose proof (sampling_gen_text _ _ _ _ _ _ Hs) as Hg;
      pose proof (sampling_kept encode decode sess_run cut_context cut_text
                    f a bs s1) as K;
      rewrite Hs in K; destruct K as (K1 & _); cbn in Hg, K1
  end.
  match goal with
  | Hf : for_gens _ _ _ _ = _ |- _ =>
      apply for_gens_done in Hf as ((G1 & _) & _)
  end.
  cbn [gen_texts set_generated]. rewrite G1, K1, Hg.
  eexists. f_equal. unfold rendered. apply fmap_replicate.
Qed.

Lemma batches_copies fuel a bs st u st' :
  batches fuel a bs st = (Done u, st') ->
  exists texts,
    gen_texts st'
    = gen_texts st ++ concat (map (replicate (Z.to_nat bs)) texts).
Proof.
  revert st. induction fuel as [|fuel IH]; intros st H; [discriminate|].
  cbn [Generate.batches] in H. run_inv H.
  - match goal with
    | Hb : Generate.batch _ _ _ _ _ _ _ _ _ = _ |- _ =>
        apply batch_copies in Hb as (text & Htext)
    end.
    apply IH in H as (texts & H). exists (text :: texts).
    rewrite H, Htext, <- app_assoc. reflexivity.
  - exists []. cbn. now rewrite app_nil_r.
Qed.

(** *** One slot, fixed length *)

Lemma slot_first a rows l L st :
  str_truthy (prefix a) = false -> list_truthy (batch_prefix a) = false ->
  str_truthy (truncate a) = false ->
  length a = Some L -> L - 1 <= total_tokens st ->
  truncated st = [false] -> gen_text st = [l] ->
  deref (heap st) l = [] -> rows <> [] ->
  slot a (map (drop 1) rows) 0 st
  = (Done tt,
     set_truncated [true]
       (set_gen_text [l]
          (set_heap (alter (fun cell => cell ++ [drop 1 (hd [] rows)]) l
                       (heap st)) st))).
Proof.
  intros Hp Hbp Ht HL Htot Htr Hg Hd Hrows.
  destruct rows as [|r rows]; [contradiction|].
  unfold Generate.slot, bind, get, index, setitem, ret, modify, lift.
  rewrite Htr, Hg, Hp, Hbp, Ht, HL. cbn. rewrite Hd. cbn.
  destruct (Z.leb_spec (L - 1) (total_tokens st)); [|lia].
  cbn. rewrite Htr. cbn. rewrite Hg. reflexivity.
Qed.


(** The rows the model must give: at least one per call. *)
Hypothesis some_row : forall n len, sess_run n len [[endoftext]] <> [].

(** What the [n]-th call hands to the only slot when [length] is [L]. *)
Definition first_row (L : Z) (n : nat) : chunk :=
  drop 1 (hd [] (sess_run n (Z.min L 1022) [[endoftext]])).

Lemma sample_step_single a l L st :
  str_truthy (prefix a) = false -> list_truthy (batch_prefix a) = false ->
  str_truthy (truncate a) = false ->
  length a = Some L -> 1 <= L <= 1023 ->
  context_tokens st = [[endoftext]] -> total_tokens st = 0 ->
  truncated st = [false] -> gen_text st = [l] ->
  deref (heap st) l = [] ->
  sample_step a 1 st
  = (Done tt,
     set_truncated [true]
       (set_gen_text [l]
          (set_heap (alter (fun cell => cell ++ [first_row L (calls st)]) l
                       (heap st))
             (set_total_tokens 1022
                (set_calls (S (calls st))
                   (emit_event (EvSample (Z.min L 1022) [[endoftext]]) st)))))).
Proof.
  intros Hp Hbp Ht HL HLr Hc Htot Htr Hg Hd.
  unfold Generate.sample_step, bind, get, modify, index, ret, range.
  rewrite !Hc. cbn [lookup list_lookup].
  change (Z.to_nat 1) with 1%nat. cbn [Generate.for_slots seq].
  unfold bind, ret. rewrite ?Hc.
  assert (Hlen : Z.min (if int_truthy (length a) then default 0 (length a)
                        else 1023)
                   (1023 - Z.of_nat (List.length [endoftext]))
                 = Z.min L 1022).
  { rewrite HL. cbn. destruct (Z.eqb_spec L 0); [lia|]. reflexivity. }
  rewrite Hlen.
  erewrite slot_first; try eassumption; try apply some_row.
  - cbn. rewrite Htot. reflexivity.
  - cbn. lia.
Qed.


Lemma emit_succeeds a l st :
  exists st',
    emit decode a l st = (Done tt, st') /\
    gen_texts st' = gen_texts st ++ [render decode (deref (heap st) l)] /\
    context_tokens st' = context_tokens st /\
    generated st' = generated st /\ calls st' = calls st /\
    samples (trace st') = samples (trace st).
Proof.
  unfold emit, bind, get, modify, ret.
  destruct (str_truthy (destination_path a)), (return_as_list a); cbn;
    eexists; (split; [reflexivity|]); cbn; repeat split;
    unfold samples; rewrite ?List.filter_app; cbn; now rewrite ?app_nil_r.
Qed.

Lemma batch_single fuel a L st :
  str_truthy (prefix a) = false -> list_truthy (batch_prefix a) = false ->
  str_truthy (truncate a) = false ->
  length a = Some L -> 1 <= L <= 1023 ->
  context_tokens st = [[endoftext]] ->
  exists st',
    batch (S (S fuel)) a 1 st = (Done tt, st') /\
    context_tokens st' = [[endoftext]] /\
    generated st' = generated st + 1 /\
    gen_texts st'
    = gen_texts st ++ [render decode [first_row L (calls st)]] /\
    calls st' = S (calls st) /\
    samples (trace st')
    = samples (trace st) ++ [EvSample (Z.min L 1022) [[endoftext]]].
Proof.
  intros Hp Hbp Ht HL HLr Hc.
  unfold Generate.batch. unfold bind at 1, modify.
  change (Z.to_nat 1) with 1%nat. cbn [replicate].
  unfold bind at 1. cbn [Generate.sampling]. unfold bind at 1, get. cbn [truncated set_total_tokens set_truncated existsb negb orb].
  unfold bind at 1.
  erewrite (sample_step_single a (List.length (heap st)) L);
    try eassumption; try reflexivity.
  2: { unfold deref. cbn. now rewrite list_lookup_middle. }
  unfold bind, get, ret.
  cbn [truncated gen_text heap calls set_total_tokens set_truncated
       set_gen_text set_heap set_calls emit_event existsb negb orb for_gens].
  unfold bind, ret.
  all: match goal with
       | |- context [emit _ _ ?l ?s] =>
           destruct (emit_succeeds a l s) as (s' & E & Hg & Hx & Hn & Hk & Hs)
       end.
  all: rewrite E; unfold bind, ret, modify; eexists; split; [reflexivity|].
  all: cbn [context_tokens heap generated gen_texts calls trace
            set_total_tokens set_truncated set_gen_text set_heap set_calls
            set_generated emit_event] in Hg, Hx, Hn, Hk, Hs |- *.
  all: rewrite Hg, Hx, Hn, Hk, Hs.
  all: unfold deref; rewrite list_lookup_alter, list_lookup_middle by reflexivity.
  all: repeat split; cbn [fmap option_fmap option_map default app]; try reflexivity.
  all: first [ assumption
             | destruct (decide _); [reflexivity|congruence]
             | unfold samples; rewrite List.filter_app; reflexivity ].
Qed.


Lemma batches_step fuel a bs :
  batches (S fuel) a bs
  = (st <- get ;;
     if generated st <? nsamples a
     then batch fuel a bs ;;; batches fuel a bs
     else ret tt).
Proof. reflexivity. Qed.

Lemma batches_single k fuel a L st :
  str_truthy (prefix a) = false -> list_truthy (batch_prefix a) = false ->
  str_truthy (truncate a) = false ->
  length a = Some L -> 1 <= L <= 1023 ->
  context_tokens st = [[endoftext]] ->
  nsamples a = generated st + Z.of_nat k ->
  (k + 2 <= fuel)%nat ->
  exists st',
    batches fuel a 1 st = (Done tt, st') /\
    gen_texts st'
    = gen_texts st
      ++ map (fun j => render decode [first_row L (calls st + j)]) (seq 0 k) /\
    samples (trace st')
    = samples (trace st)
      ++ replicate k (EvSample (Z.min L 1022) [[endoftext]]).
Proof.
  intros Hp Hbp Ht HL HLr. revert fuel st.
  induction k as [|k IH]; intros fuel st Hc Hn Hf.
  - destruct fuel as [|fuel]; [lia|]. cbn [Generate.batches].
    unfold bind, get. destruct (Z.ltb_spec (generated st) (nsamples a)); [lia|].
    exists st. cbn. now rewrite !app_nil_r.
  - destruct fuel as [|[|[|fuel]]]; try lia. rewrite batches_step.
    unfold bind at 1, get.
    destruct (Z.ltb_spec (generated st) (nsamples a)); [|lia].
    destruct (batch_single fuel a L st Hp Hbp Ht HL HLr Hc)
      as (s1 & E & Hc1 & Hg1 & Ht1 & Hk1 & Hs1).
    unfold bind at 1. rewrite E.
    destruct (IH (S (S fuel)) s1 Hc1 ltac:(lia) ltac:(lia))
      as (st' & E' & Ht' & Hs').
    exists st'. split; [exact E'|].
    rewrite Ht', Hs', Ht1, Hs1, Hk1, <- !app_assoc. split.
    + f_equal. cbn [seq map app]. rewrite Nat.add_0_r. f_equal.
      rewrite <- seq_shift, map_map. apply map_ext. intros j.
      do 3 f_equal. lia.
    + reflexivity.
Qed.


Lemma preamble_plain a L :
  str_truthy (prefix a) = false -> list_truthy (batch_prefix a) = false ->
  default 1 (batch_size a) = 1 -> length a = Some L -> L <> 0 ->
  exists a', preamble a = Done a'.
Proof.
  intros Hp Hbp Hbs HL HL0. unfold preamble. cbn zeta.
  rewrite Hbs, Hp, Hbp, HL, Z.mod_1_r. cbn.
  destruct (Z.eqb_spec L 0); [contradiction|]. cbn. now eexists.
Qed.

Lemma render_one g : render decode [g] = lstrip_nl (decode g).
Proof.
  unfold render. cbn. generalize (lstrip_nl (decode g)). intros s.
  induction s as [|c s IH]; cbn; [reflexivity|now rewrite IH].
Qed.

End Services.

(** X8.  Every slot of a batch refers to one list of
    chunks, so the texts of a batch are all the same string: the list
    [generate] returns is made of runs of [batch_size] equal texts, and
    holds at most [nsamples / batch_size] different ones. *)
Theorem batch_texts_are_copies
  encode decode endoftext sess_run cut_context cut_text fuel a texts tr :
  Generate.generate encode decode endoftext sess_run cut_context cut_text
    fuel a = (Done (Some texts), tr) ->
  exists firsts,
    texts
    = concat (map (replicate (Z.to_nat (default 1 (batch_size a)))) firsts) /\
    (List.length firsts * Z.to_nat (default 1%Z (batch_size a)))%nat
    = Z.to_nat (nsamples a).
Proof.
  intros H.
  pose proof (generate_done _ _ _ _ _ _ _ _ _ _ H)
    as (a' & texts' & Hp & Hlen & _ & _ & Hret).
  unfold Generate.generate in H.
  destruct (Generate.generate_body _ _ _ _ _ _ fuel a entry) as [r st] eqn:E.
  injection H as -> <-. unfold Generate.generate_body in E. run_inv E.
  all: match goal with
       | Hp1 : preamble _ = Done ?b, Hp2 : preamble _ = Done ?c |- _ =>
           assert (b = c) by congruence; subst
       end.
  all: pose proof (preamble_done _ _ Hp) as (Hbs0 & Hmod & Hbs & _);
    cbn zeta in Hbs0, Hmod.
  all: match goal with
       | Hb : Generate.batches _ _ _ _ _ _ _ _ _ = _ |- _ =>
           apply batches_copies in Hb as (firsts & Hf)
       end.
  all: rewrite Hbs in Hf; cbn [default gen_texts emit_event
                               set_context_tokens entry app] in Hf.
  all: destruct (return_as_list a'); [|discriminate].
  all: match goal with
       | Hr : Some _ = Some _ |- _ => injection Hr as ->
       end.
  all: cbn [gen_texts emit_event]; exists firsts; split; [exact Hf|].
  all: destruct (return_as_list a); [|discriminate].
  all: injection Hret as <-.
  all: cbn [gen_texts emit_event] in Hlen; rewrite Hf in Hlen.
  all: assert (Hcount : forall n (l : list string),
                 List.length (concat (map (replicate n) l))
                 = (List.length l * n)%nat)
    by (intros n l; induction l as [|x l IHl]; cbn;
        [reflexivity|now rewrite length_app, length_replicate, IHl]).
  all: now rewrite Hcount in Hlen.
Qed.

(** X9.  For a batch of one without prefix and
    truncation term and a [length] between 1 and 1023, [generate] returns
    when the model gives a row at every call: it calls the model once per
    sample, always with the end-of-text token as context and for
    [min(length, 1022)] tokens, and the text of a sample is the decoded
    row, its first token and its leading newlines dropped. *)
Theorem single_slot_fixed_length
  encode decode endoftext sess_run cut_context cut_text fuel a L :
  (forall n len, sess_run n len [[endoftext]] <> []) ->
  str_truthy (prefix a) = false -> list_truthy (batch_prefix a) = false ->
  str_truthy (truncate a) = false ->
  default 1 (batch_size a) = 1 ->
  length a = Some L -> 1 <= L <= 1023 ->
  0 <= nsamples a ->
  (Z.to_nat (nsamples a) + 2 <= fuel)%nat ->
  let texts :=
    map (fun n => lstrip_nl (decode (first_row endoftext sess_run L n)))
        (seq 0 (Z.to_nat (nsamples a))) in
  exists tr,
    Generate.generate encode decode endoftext sess_run cut_context cut_text
      fuel a
    = (Done (if return_as_list a then Some texts else None), tr) /\
    samples tr
    = replicate (Z.to_nat (nsamples a))
        (EvSample (Z.min L 1022) [[endoftext]]).
Proof.
  intros Hrow Hp Hbp Ht Hbs HL HLr Hn Hf texts.
  destruct (preamble_plain a L Hp Hbp Hbs HL ltac:(lia)) as (a' & Ha).
  pose proof (preamble_done _ _ Ha)
    as (_ & _ & Hbs' & Hn' & Hd' & Hr' & Ht' & HL' & _ & Hp' & Hbp').
  rewrite Hbs in Hbs'.
  unfold Generate.generate, Generate.generate_body.
  unfold bind at 1, lift. rewrite Ha, Hbs'. cbn [default].
  unfold bind at 1, modify. unfold bind at 1.
  set (s0 := set_context_tokens _ entry).
  assert (Hc0 : context_tokens s0 = [[endoftext]]).
  { subst s0. cbn. unfold initial_context.
    now rewrite Hp', Hp, Hbp', Hbp. }
  change (id 1) with 1.
  assert (Hstart : forall s1,
            context_tokens s1 = [[endoftext]] -> generated s1 = 0 ->
            gen_texts s1 = [] -> calls s1 = 0%nat ->
            samples (trace s1) = [] ->
            exists s2,
              Generate.batches encode decode sess_run cut_context cut_text
                fuel a' 1 s1 = (Done tt, s2) /\
              gen_texts s2 = map (render decode) (map (fun n => [first_row endoftext sess_run L n]) (seq 0 (Z.to_nat (nsamples a)))) /\
              samples (trace s2)
              = replicate (Z.to_nat (nsamples a))
                  (EvSample (Z.min L 1022) [[endoftext]])).
  { intros s1 Hc1 Hg1 Hx1 Hk1 Hs1.
    destruct (batches_single encode decode endoftext sess_run cut_context
                cut_text Hrow (Z.to_nat (nsamples a)) fuel a' L s1)
      as (s2 & E2 & Hx2 & Hs2); try congruence; try lia.
    exists s2. split; [exact E2|].
    rewrite Hx2, Hs2, Hx1, Hk1, Hs1, map_map. now split. }
  destruct (str_truthy (destination_path a')) eqn:Hdest; unfold ret at 1;
    cbv beta iota.
  all: match goal with
       | |- context [Generate.batches _ _ _ _ _ _ _ _ ;;; _] =>
           unfold bind at 1
       end.
  all: match goal with
       | |- context [Generate.batches _ _ _ _ _ _ _ _ ?s] =>
           destruct (Hstart s) as (s2 & E2 & Hx2 & Hs2);
           [assumption || reflexivity..|]; rewrite E2
       end.
  all: unfold bind, get, ret, modify; cbv beta iota.
  all: eexists; split.
  all: cbn [gen_texts trace emit_event].
  all: try (rewrite Hr', Hx2; apply (f_equal2 pair); [|reflexivity];
            f_equal; destruct (return_as_list a); [|reflexivity];
            f_equal; subst texts; rewrite map_map; apply map_ext; intros n;
            apply render_one).
  - unfold samples in *. rewrite List.filter_app, Hs2. cbn.
    now rewrite app_nil_r.
  - exact Hs2.
Qed.

Lemma file_closed_on_return_only_witness :
  let run := Generate.generate Scenario.byte_encode Scenario.byte_decode
               Scenario.end_of_text Scenario.no_rows Scenario.half
               Scenario.half 4 Scenario.to_file_and_list in
  fst run = Raise IndexError /\
  handles (snd run) = [EvOpen "out.txt"].
Proof.
  intros run. split; [vm_compute; reflexivity|].
  exact (file_closed_on_return_only Scenario.byte_encode
           Scenario.byte_decode Scenario.end_of_text Scenario.no_rows
           Scenario.half Scenario.half 4 Scenario.to_file_and_list
           (fst run) (snd run) (surjective_pairing run)).
Defined.

Lemma batch_texts_are_copies_witness :
  let a := Scenario.generate_defaults 2 2 3 in
  exists firsts,
    ["aaaaa"; "aaaaa"]%string
    = concat (map (replicate (Z.to_nat (default 1%Z (batch_size a)))) firsts) /\
    (List.length firsts * Z.to_nat (default 1%Z (batch_size a)))%nat
    = Z.to_nat (nsamples a).
Proof.
  intros a.
  apply (batch_texts_are_copies Scenario.byte_encode Scenario.byte_decode
           Scenario.end_of_text Scenario.a_then_b Scenario.half Scenario.half
           10 a ["aaaaa"; "aaaaa"]%string (snd (Scenario.run_generate 10 a))).
  vm_compute. reflexivity.
Defined.

Lemma single_slot_fixed_length_witness :
  let a := Scenario.generate_defaults 2 1 3 in
  let texts :=
    map (fun n => lstrip_nl (Scenario.byte_decode
                               (first_row Scenario.end_of_text
                                  Scenario.a_then_b 3 n)))
        (seq 0 (Z.to_nat (nsamples a))) in
  exists tr,
    Scenario.run_generate 4 a
    = (Done (if return_as_list a then Some texts else None), tr) /\
    samples tr
    = replicate (Z.to_nat (nsamples a))
        (EvSample (Z.min 3 1022) [[Scenario.end_of_text]]).
Proof.
  intros a.
  apply (single_slot_fixed_length Scenario.byte_encode Scenario.byte_decode
           Scenario.end_of_text Scenario.a_then_b Scenario.half Scenario.half
           4 a 3);
    first [ reflexivity | lia | cbn; lia | intros n len; discriminate ].
Defined.

(** X10.  A call of [generate_to_file] that returns has
    printed nothing and written one string per sample when the
    destination is a non-empty path; with an empty destination it writes
    nothing and prints every sample instead. *)
Theorem to_file_writes_or_prints
  encode decode endoftext sess_run cut_context cut_text fuel a u tr :
  generate_to_file encode decode endoftext sess_run cut_context cut_text
    fuel a = (Done u, tr) ->
  if str_truthy (destination_path a)
  then prints tr = [] /\ List.length (writes tr) = Z.to_nat (nsamples a)
  else writes tr = [] /\ List.length (prints tr) = Z.to_nat (nsamples a).
Proof.
  unfold generate_to_file.
  match goal with
  | |- context [Generate.generate _ _ _ _ _ _ _ ?b] =>
      destruct (Generate.generate encode decode endoftext sess_run
                  cut_context cut_text fuel b) as [r tr'] eqn:E
  end.
  destruct r as [ret| |]; intros [= <-]; subst.
  apply generate_done in E as (a' & texts & Hp & Hlen & Hw & Hpr & _).
  apply preamble_done in Hp as (_ & _ & _ & _ & Hd & Hr & _).
  cbn [destination_path return_as_list nsamples] in Hd, Hr, Hlen.
  rewrite Hw, Hpr. unfold written, printed. rewrite Hd, Hr.
  destruct (str_truthy (destination_path a)); cbn [negb andb];
    now rewrite length_map.
Qed.

Lemma to_file_writes_or_prints_witness :
  let tr := snd (generate_to_file Scenario.byte_encode Scenario.byte_decode
                   Scenario.end_of_text Scenario.a_then_b Scenario.half
                   Scenario.half 4 Scenario.to_file_and_list) in
  if str_truthy (destination_path Scenario.to_file_and_list)
  then prints tr = [] /\
       List.length (writes tr)
       = Z.to_nat (nsamples Scenario.to_file_and_list)
  else writes tr = [] /\
       List.length (prints tr)
       = Z.to_nat (nsamples Scenario.to_file_and_list).
Proof.
  intros tr.
  apply (to_file_writes_or_prints Scenario.byte_encode Scenario.byte_decode
           Scenario.end_of_text Scenario.a_then_b Scenario.half Scenario.half
           4 Scenario.to_file_and_list tt tr).
  vm_compute. reflexivity.
Defined.

(** X11.  The contexts built from [batch_prefix] all have the length
    of the longest encoded prefix, no more: a longest prefix is left as
    it is, and a shorter one gets tokens 0 in front, as many as it is
    shorter. *)
Theorem padded_contexts_align (ps : list (list token)) :
  exists ml,
    Forall (fun p => (List.length p <= ml)%nat) ps /\
    (ps = [] \/ Exists (fun p => List.length p = ml) ps) /\
    Forall (fun row => List.length row = ml) (pad_front ps) /\
    Forall2 (fun p row =>
               drop (ml - List.length p) row = p /\
               take (ml - List.length p) row
               = replicate (ml - List.length p) 0 /\
               (List.length p = ml -> row = p))
      ps (pad_front ps).
Proof.
  unfold pad_front.
  set (ml := foldr (fun p m => Nat.max (List.length p) m) 0%nat ps).
  exists ml.
  assert (Hmax : Forall (fun p => (List.length p <= ml)%nat) ps).
  { subst ml. induction ps as [|p ps IH]; constructor; cbn; [lia|].
    eapply Forall_impl; [exact IH|]. cbn. intros; lia. }
  assert (Hhit : ps = [] \/ Exists (fun p => List.length p = ml) ps).
  { subst ml. clear Hmax. induction ps as [|p ps IH]; [now left|right].
    cbn [foldr].
    set (m := foldr (fun p m => Nat.max (List.length p) m) 0%nat ps) in *.
    destruct (Nat.max_spec (List.length p) m) as [[Hlt E]|[Hle E]];
      rewrite E.
    - destruct IH as [->|IH]; [cbn in Hlt; lia|]. now apply Exists_cons_tl.
    - now apply Exists_cons_hd. }
  split; [exact Hmax|]. split; [exact Hhit|].
  clearbody ml. clear Hhit. split.
  - induction Hmax as [|p ps Hp _ IH]; constructor; [|exact IH].
    cbn beta in Hp. rewrite length_app, length_replicate.
    unfold token in *. lia.
  - induction Hmax as [|p ps Hp _ IH]; constructor; [|exact IH].
    cbn beta in Hp. split; [|split].
    + rewrite drop_app_ge by (rewrite length_replicate; lia).
      rewrite length_replicate, Nat.sub_diag. reflexivity.
    + rewrite take_app_le by (rewrite length_replicate; lia).
      apply take_ge. rewrite length_replicate. lia.
    + intros E. unfold token in *. rewrite E, Nat.sub_diag. reflexivity.
Qed.

(** *** Sampling without a length *)




Section Endless.

Variable encode : string -> list token.
Variable decode : list token -> string.
Variable endoftext : token.
Variable sess_run : nat -> Z -> list (list token) -> list (list token).
Variable cut_context : Z -> Z.
Variable cut_text : Z -> Z.

Abbreviation slot := (slot encode decode cut_context cut_text).
Abbreviation for_slots := (for_slots encode decode cut_context cut_text).
Abbreviation sample_step := (sample_step encode decode sess_run cut_context cut_text).
Abbreviation sampling := (sampling encode decode sess_run cut_context cut_text).
Abbreviation batch := (batch encode decode sess_run cut_context cut_text).
Abbreviation batches := (batches encode decode sess_run cut_context cut_text).









End Endless.

(** Whether a call came to its [return]. *)
Definition returned {A} (run : outcome A * list event) : bool :=
  match fst run with
  | Done _ => true
  | _ => false
  end.



End SamplingFacts.

(** ** The samples written during training *)

Module SamplesFacts.
Import Py Samples.

Section Services.

Variable decode : list Z -> string.
Variable sess_run : nat -> list (list Z).
Variable sample_num : Z.
Variable batch_size : Z.

Abbreviation rows := (rows decode).
Abbreviation sample_loop := (sample_loop decode sess_run sample_num batch_size).
Abbreviation generate_samples :=
  (generate_samples decode sess_run sample_num batch_size).

(** The text of sample [j], counted from 0: row [j mod batch_size] of call
    [j / batch_size], under the banner numbered [j + 1]. *)
Definition sample (j : nat) : string :=
  let B := Z.to_nat batch_size in
  banner (Z.of_nat j + 1) (decode (nth (j mod B) (sess_run (j / B)) [])).

Lemma map_seq_from {A} (f : nat -> A) a m :
  map f (seq a m) = map (fun i => f (a + i)%nat) (seq 0 m).
Proof.
  revert a f. induction m as [|m IH]; intros a f; [reflexivity|].
  cbn [seq map]. rewrite Nat.add_0_r. f_equal.
  rewrite (IH (S a)), (IH 1%nat). apply map_ext. intros i.
  f_equal. lia.
Qed.

Lemma rows_seq out a m st :
  (a + m <= List.length out)%nat ->
  exists st',
    rows out (seq a m) st = Some st' /\
    all_text st'
    = all_text st
      ++ map (fun i => banner (index st + Z.of_nat (i - a) + 1)
                         (decode (nth i out []))) (seq a m) /\
    index st' = index st + Z.of_nat m /\
    calls st' = calls st /\
    (text st = last (all_text st) -> text st' = last (all_text st')).
Proof.
  revert a st. induction m as [|m IH]; intros a st Hlen.
  - exists st. cbn. rewrite app_nil_r. repeat split; [lia|auto].
  - cbn [seq Samples.rows]. unfold row.
    destruct (out !! a) as [o|] eqn:Ho.
    2: { apply lookup_ge_None in Ho. lia. }
    match goal with
    | |- context [Samples.rows _ _ _ ?s] =>
        destruct (IH (S a) s ltac:(lia)) as (st' & E & Ht & Hi & Hc & Hl)
    end.
    exists st'. split; [exact E|].
    cbn [all_text index text calls] in Ht, Hi, Hc, Hl.
    repeat split.
    + rewrite Ht, <- app_assoc. f_equal. cbn [map app]. f_equal.
      * replace (a - a)%nat with 0%nat by lia.
        rewrite (nth_lookup_Some _ _ _ _ Ho).
        apply (f_equal2 banner); [lia|reflexivity].
      * apply map_ext_in. intros i Hin%in_seq.
        apply (f_equal2 banner); [lia|reflexivity].
    + lia.
    + exact Hc.
    + intros _. apply Hl. now rewrite last_snoc.
Qed.


Hypothesis some_samples : 0 <= sample_num.
Hypothesis some_slots : 1 <= batch_size.
Hypothesis full_batches :
  forall n, (Z.to_nat batch_size <= List.length (sess_run n))%nat.

Lemma sample_loop_from fuel n st :
  let B := Z.to_nat batch_size in
  let N := Z.to_nat sample_num in
  index st = Z.of_nat n ->
  (n <= N)%nat ->
  (n = (n / B) * B \/ n = N)%nat ->
  all_text st = map sample (seq 0 n) ->
  calls st = ((n + B - 1) / B)%nat ->
  text st = last (all_text st) ->
  (N - n < fuel)%nat ->
  exists st',
    sample_loop fuel st = Returned st' /\
    all_text st' = map sample (seq 0 N) /\
    calls st' = ((N + B - 1) / B)%nat /\
    text st' = last (all_text st').
Proof.
  intros B N. revert n st.
  induction fuel as [|fuel IH]; intros n st Hi Hn Hk Ha Hc Hl Hf; [lia|].
  cbn [Samples.sample_loop].
  destruct (Z.ltb_spec (index st) sample_num) as [Hlt|Hge].
  - assert (HnN : (n < N)%nat) by lia.
    destruct Hk as [Hk|Hk]; [|lia].
    remember (n / B)%nat as k eqn:Ek. clear Ek.
    set (m := Z.to_nat (Z.min (sample_num - index st) batch_size)).
    assert (Hm : (1 <= m <= B)%nat /\ (n + m <= N)%nat /\
                 (m = B \/ n + m = N)%nat) by lia.
    destruct Hm as ((Hm1 & Hm2) & Hm3 & Hm4).
    match goal with
    | |- context [Samples.rows _ _ _ ?s] =>
        destruct (rows_seq (sess_run (calls st)) 0 m s) as
          (st2 & E & Ht & Hi2 & Hc2 & Hl2)
    end.
    { pose proof (full_batches (calls st)). cbn. lia. }
    rewrite E. cbn [all_text index text calls] in Ht, Hi2, Hc2, Hl2.
    assert (Hck : calls st = k).
    { rewrite Hc, Hk. symmetry.
      apply (Nat.div_unique _ _ _ (B - 1)); lia. }
    apply (IH (n + m)%nat st2); try lia.
    + destruct Hm4 as [->|Hm4]; [left|now right].
      replace (n + B)%nat with ((k + 1) * B)%nat by lia.
      rewrite Nat.div_mul by lia. reflexivity.
    + rewrite Ht, Ha, seq_app, map_app. f_equal.
      rewrite (map_seq_from sample).
      apply map_ext_in. intros i Hin%in_seq. unfold sample.
      fold B. rewrite Hi.
      replace (0 + n + i)%nat with (i + k * B)%nat by lia.
      rewrite Nat.div_add, Nat.Div0.mod_add by lia.
      rewrite Nat.div_small, Nat.mod_small by lia.
      rewrite Hck. cbn [Nat.add].
      apply (f_equal2 banner); [lia|reflexivity].
    + rewrite Hc2, Hck. apply (Nat.div_unique _ _ _ (m - 1)); lia.
    + now apply Hl2.
  - assert (n = N) by lia. subst n.
    exists st. repeat split; assumption.
Qed.

End Services.

(** X12.  When [sample_num] is at least 1, the batch
    has at least one slot and every call of the model returns a row for
    each slot, [generate_samples] returns: it calls the model
    [ceil(sample_num / batch_size)] times, collects exactly [sample_num]
    texts under banners numbered 1, 2, ... in the order of the rows,
    prints the last of them and writes them all, joined by newlines. *)
Theorem samples_are_numbered decode sess_run sample_num batch_size fuel :
  1 <= sample_num -> 1 <= batch_size ->
  (forall n, (Z.to_nat batch_size <= List.length (sess_run n))%nat) ->
  (Z.to_nat sample_num < fuel)%nat ->
  let B := Z.to_nat batch_size in
  let N := Z.to_nat sample_num in
  let texts := map (sample decode sess_run batch_size) (seq 0 N) in
  exists st,
    sample_loop decode sess_run sample_num batch_size fuel entry
    = Returned st /\
    all_text st = texts /\
    List.length (all_text st) = N /\
    calls st = ((N + B - 1) / B)%nat /\
    generate_samples decode sess_run sample_num batch_size fuel
    = Returned (sample decode sess_run batch_size (N - 1),
                String.concat (String "010" "") texts).
Proof.
  intros Hs Hb Hrows Hf B N texts.
  destruct (sample_loop_from decode sess_run sample_num batch_size
              ltac:(lia) Hb Hrows fuel 0 entry)
    as (st & E & Ha & Hc & Hl); try reflexivity; try lia.
  { left. now rewrite Nat.Div0.div_0_l. }
  { cbn. symmetry. apply Nat.div_small. lia. }
  exists st. split; [exact E|]. split; [exact Ha|].
  split; [now rewrite Ha, length_map, length_seq|].
  split; [exact Hc|].
  unfold generate_samples. rewrite E, Hl, Ha.
  assert (Hlast : last (map (sample decode sess_run batch_size) (seq 0 N))
                  = Some (sample decode sess_run batch_size (N - 1))).
  { assert (HN : (1 <= N)%nat) by lia.
    clearbody N. destruct N as [|n]; [lia|].
    rewrite seq_S, map_app. cbn [map]. rewrite last_snoc. cbn [Nat.add].
    now replace (S n - 1)%nat with n by lia. }
  subst N. now rewrite Hlast.
Qed.


Lemma samples_are_numbered_witness :
  let B := Z.to_nat 2 in
  let N := Z.to_nat 3 in
  let texts := map (sample Scenario.byte_decode Scenario.two_rows 2) (seq 0 N) in
  exists st,
    sample_loop Scenario.byte_decode Scenario.two_rows 3 2 4 entry
    = Returned st /\
    all_text st = texts /\
    List.length (all_text st) = N /\
    calls st = ((N + B - 1) / B)%nat /\
    generate_samples Scenario.byte_decode Scenario.two_rows 3 2 4
    = Returned (sample Scenario.byte_decode Scenario.two_rows 2 (N - 1),
                String.concat (String "010" "") texts).
Proof.
  apply (samples_are_numbered Scenario.byte_decode Scenario.two_rows 3 2 4).
  - lia.
  - lia.
  - intros n. cbn. lia.
  - cbn. lia.
Defined.

(** X13.  With [sample_num] at 0 or below the loop body never
    runs: the model is not called, and [print(text)] raises
    [UnboundLocalError] before the samples file is written. *)
Theorem no_samples_unbound decode sess_run sample_num batch_size fuel :
  sample_num <= 0 ->
  sample_loop decode sess_run sample_num batch_size (S fuel) entry
  = Returned entry /\
  generate_samples decode sess_run sample_num batch_size (S fuel)
  = Failed UnboundLocalError.
Proof.
  intros Hs. unfold generate_samples. cbn [sample_loop].
  destruct (Z.ltb_spec (index entry) sample_num) as [Hlt|_].
  - cbn in Hlt. lia.
  - now split.
Qed.

Lemma no_samples_unbound_witness :
  sample_loop Scenario.byte_decode Scenario.two_rows 0 2 1 entry
  = Returned entry /\
  generate_samples Scenario.byte_decode Scenario.two_rows 0 2 1
  = Failed UnboundLocalError.
Proof.
  apply (no_samples_unbound Scenario.byte_decode Scenario.two_rows 0 2 0).
  lia.
Defined.

End SamplesFacts.

(** ** Files *)

Module FilesFacts.
Import Files.

(** Whether character [c] occurs in [s]. *)
Fixpoint mentions (c : ascii) (s : string) : bool :=
  match s with
  | EmptyString => false
  | String c' s' => Ascii.eqb c' c || mentions c s'
  end.

Lemma mentions_app c a b :
  mentions c (a ++ b)%string = mentions c a || mentions c b.
Proof.
  induction a as [|x a IH]; cbn; [reflexivity|].
  now rewrite IH, orb_assoc.
Qed.

Lemma replace_char_absent old new s :
  mentions old s = false -> replace_char old new s = s.
Proof.
  induction s as [|c s IH]; cbn; [reflexivity|].
  intros [Hc Hs]%orb_false_iff. now rewrite Hc, IH.
Qed.

Lemma replace_char_app old new a b :
  replace_char old new (a ++ b)%string
  = (replace_char old new a ++ replace_char old new b)%string.
Proof. induction a as [|c a IH]; cbn; [reflexivity|now rewrite IH]. Qed.

Lemma replace_char_gone old new s :
  new <> old -> mentions old (replace_char old new s) = false.
Proof.
  intros Hne. induction s as [|c s IH]; cbn; [reflexivity|].
  rewrite IH, orb_false_r.
  destruct (Ascii.eqb_spec c old) as [->|Hc].
  - now apply Ascii.eqb_neq.
  - now apply Ascii.eqb_neq.
Qed.

Lemma join2_mentions c path b :
  c <> "/"%char ->
  mentions c path = false -> mentions c b = false ->
  mentions c (join2 path b) = false.
Proof.
  intros Hc Hp Hb. unfold join2.
  destruct (starts_with_sep b); [exact Hb|].
  destruct (_ || _); rewrite !mentions_app, ?Hp, ?Hb; [reflexivity|].
  cbn [mentions orb]. rewrite !orb_false_r. apply Ascii.eqb_neq. congruence.
Qed.

Lemma isfile_cons fs p q :
  isfile (q :: fs) p = (p =? q)%string || isfile fs p.
Proof. reflexivity. Qed.

Section Network.

Variable fetch : string -> bool.

Lemma download_all_done sub_dir model_name names fs fs' :
  download_all fetch sub_dir model_name names fs = Some fs' ->
  (forall p, isfile fs p = true -> isfile fs' p = true) /\
  (forall f, In f names -> isfile fs' (join sub_dir [f]) = true).
Proof.
  revert fs. induction names as [|f names IH]; cbn [download_all]; intros fs H.
  - injection H as <-. split; [auto|]. intros f [].
  - unfold download_file_with_progress in H.
    destruct (fetch _); [|discriminate].
    apply IH in H as [Hkeep Hnew]. split.
    + intros p Hp. apply Hkeep. rewrite isfile_cons, Hp. apply orb_true_r.
    + intros g [<-|Hg]; [|now apply Hnew].
      apply Hkeep. rewrite isfile_cons, String.eqb_refl. reflexivity.
Qed.

End Network.

Lemma all_present_intro fs model_dir model_name names :
  (forall f, In f names ->
             isfile fs (join model_dir [model_name; f]) = true) ->
  all_present fs model_dir model_name names = true.
Proof.
  induction names as [|f names IH]; intros H; cbn [all_present];
    [reflexivity|].
  rewrite (H f) by now left. cbn. apply IH. intros g Hg. apply H. now right.
Qed.

(** X14.  When neither [model_dir] nor [model_name] holds a
    backslash and the first statement of [cmd_finetune] has returned,
    [is_gpt2_downloaded] finds the model: running the statement again
    downloads nothing, even with the network down, and leaves the files
    as they are. *)
Theorem model_downloaded_once fetch fetch' model_dir model_name fs fs' :
  mentions "\" model_dir = false -> mentions "\" model_name = false ->
  ensure_downloaded fetch model_dir model_name fs = Some fs' ->
  is_gpt2_downloaded fs' model_dir model_name = true /\
  ensure_downloaded fetch' model_dir model_name fs' = Some fs'.
Proof.
  intros Hd Hn H.
  assert (Hp : is_gpt2_downloaded fs' model_dir model_name = true).
  { unfold ensure_downloaded in H.
    destruct (is_gpt2_downloaded fs model_dir model_name) eqn:E;
      cbn [negb] in H.
    - now injection H as <-.
    - unfold download_gpt2 in H.
      rewrite replace_char_absent in H
        by (apply join2_mentions; [discriminate|assumption..]).
      apply download_all_done in H as [_ Hnew].
      apply all_present_intro. intros f Hf. now apply Hnew. }
  split; [exact Hp|]. unfold ensure_downloaded. now rewrite Hp.
Qed.

Lemma model_downloaded_once_witness :
  let fs' := default [] (ensure_downloaded (fun _ => true) "models" "124M" []) in
  is_gpt2_downloaded fs' "models" "124M" = true /\
  ensure_downloaded (fun _ => false) "models" "124M" fs' = Some fs'.
Proof.
  intros fs'.
  apply (model_downloaded_once (fun _ => true) (fun _ => false)
           "models" "124M" [] fs'); reflexivity.
Defined.

(** X15.  The name [get_tarfile_name] gives holds no path separator,
    whatever the folder, and is four characters longer than the folder:
    the archive is a file of the working directory. *)
Theorem tarfile_name_flat checkpoint_folder :
  mentions "/" (get_tarfile_name checkpoint_folder) = false /\
  String.length (get_tarfile_name checkpoint_folder)
  = (String.length checkpoint_folder + 4)%nat.
Proof.
  unfold get_tarfile_name. split.
  - rewrite mentions_app, replace_char_gone by discriminate. reflexivity.
  - induction checkpoint_folder as [|c s IH]; [reflexivity|].
    cbn [replace_char String.append String.length Nat.add]. now rewrite IH.
Qed.

(** X16.  Archive names are not one-to-one: a folder and the folder
    whose name has ['_'] where the first has ['/'] get the same archive
    name, as the run names [a/b] and [a_b] do. *)
Theorem tarfile_name_collides p q :
  get_tarfile_name (p ++ "/" ++ q) = get_tarfile_name (p ++ "_" ++ q).
Proof.
  unfold get_tarfile_name. now rewrite !replace_char_app.
Qed.

Lemma write_rows_split start_token end_token good rest written :
  Forall (fun r => r <> []) good ->
  rest = [] \/ (exists more, rest = [] :: more) ->
  write_rows start_token end_token (good ++ rest) written
  = (match rest with [] => true | _ => false end,
     written ++ map (fun r => (start_token ++ hd "" r ++ end_token
                               ++ String "010" "")%string) good).
Proof.
  intros Hg Hr. revert written.
  induction Hg as [|r good Hne _ IH]; intros written; cbn [app map].
  - rewrite app_nil_r. destruct Hr as [->|(more & ->)]; reflexivity.
  - destruct r as [|field r]; [contradiction|].
    cbn [write_rows hd]. rewrite IH, <- app_assoc. reflexivity.
Qed.

(** X17.  [encode_csv] writes one line per row of the reader up
    to the first empty row, the first field between the two tokens, and
    skips the first line of the file when [header] is set.  At an empty
    row (the reader gives one for a blank line) [row[0]] raises
    [IndexError]: the lines before it have been written, no later row
    is. *)
Theorem csv_rows_encoded (reader : list string -> list (list string))
  (lines : list string) (header : bool) start_token end_token good rest :
  reader (if header then tail lines else lines) = good ++ rest ->
  Forall (fun r => r <> []) good ->
  rest = [] \/ (exists more, rest = [] :: more) ->
  encode_csv reader lines header start_token end_token
  = (match rest with [] => true | _ => false end,
     map (fun r => (start_token ++ hd "" r ++ end_token
                    ++ String "010" "")%string) good).
Proof.
  intros Hrows Hg Hr. unfold encode_csv. rewrite Hrows.
  now rewrite write_rows_split.
Qed.

Lemma csv_rows_encoded_witness :
  encode_csv Scenario.one_field ["text"; "a"; "b"; ""; "c"]%string true
    "<|startoftext|>" "<|endoftext|>"
  = (false,
     map (fun r => ("<|startoftext|>" ++ hd "" r ++ "<|endoftext|>"
                    ++ String "010" "")%string)
       [["a"]; ["b"]]%string).
Proof.
  apply (csv_rows_encoded Scenario.one_field
           ["text"; "a"; "b"; ""; "c"]%string true
           "<|startoftext|>" "<|endoftext|>"
           [["a"%string]; ["b"%string]] [[]; ["c"%string]]).
  - reflexivity.
  - repeat constructor; discriminate.
  - right. now exists [["c"%string]].
Defined.

End FilesFacts.
